(** * Launch-plan engine of [utils/plan_generator.py]

    A shallow embedding of the strategy / next-step resolution, the
    milestone rules and the plan assembly, together with the properties
    the specification states about them.

    Python values that reach the engine from [json.load] are modelled by
    [pyval]; the exceptions the engine can meet are [KeyError] (caught by
    the engine's [try ... except KeyError]) and [TypeError] (never
    caught). *)

From Stdlib Require Import String Ascii List ZArith Lia Bool.
From stdpp Require Import base option gmap strings list fin_maps.

Set Warnings "-register-all".
Open Scope string_scope.

(** ** Python values and exceptions *)

Module Py.

(** What [json.load] can produce.  Floats are folded into [PNum]: the
    engine only ever tests a number for truthiness, subscripts it or
    searches it, and a float behaves like an integer in all three. *)
Inductive pyval : Type :=
| PNone
| PBool (b : bool)
| PNum (n : Z)
| PStr (s : string)
| PList (l : list pyval)
| PDict (d : gmap string pyval).

Inductive exn : Type := KeyError | TypeError.

Inductive result (A : Type) : Type :=
| Ok (a : A)
| Raise (e : exn).

Arguments Ok {A} a.
Arguments Raise {A} e.

Definition bind {A B : Type} (r : result A) (k : A -> result B) : result B :=
  match r with
  | Ok a => k a
  | Raise e => Raise e
  end.

(** [try: body except KeyError: handler] *)
Definition try_except_KeyError {A : Type} (body handler : result A) : result A :=
  match body with
  | Raise KeyError => handler
  | other => other
  end.

(** [needle in hay] on two [str] values: substring containment. *)
Fixpoint contains (needle hay : string) : bool :=
  if String.prefix needle hay then true
  else match hay with
       | EmptyString => false
       | String _ rest => contains needle rest
       end.

(** [bool(v)] *)
Definition truthy (v : pyval) : bool :=
  match v with
  | PNone => false
  | PBool b => b
  | PNum n => negb (Z.eqb n 0)
  | PStr s => negb (String.eqb s "")
  | PList l => match l with [] => false | _ :: _ => true end
  | PDict d => negb (Nat.eqb (size d) 0)
  end.

(** [PStr k == x] for a list element [x]. *)
Definition str_eq (k : string) (x : pyval) : bool :=
  match x with
  | PStr s => String.eqb k s
  | _ => false
  end.

(** [k in v] for a [str] key [k]. *)
Definition py_in (k : string) (v : pyval) : result bool :=
  match v with
  | PDict d => Ok (bool_decide (is_Some (d !! k)))
  | PList l => Ok (existsb (str_eq k) l)
  | PStr s => Ok (contains k s)
  | PNone | PBool _ | PNum _ => Raise TypeError
  end.

(** [v[k]] for a [str] key [k]. *)
Definition getitem (v : pyval) (k : string) : result pyval :=
  match v with
  | PDict d => match d !! k with
               | Some x => Ok x
               | None => Raise KeyError
               end
  | _ => Raise TypeError
  end.

(** A list of [str]. *)
Definition strs (l : list string) : pyval := PList (PStr <$> l).

#[global] Instance result_ret : MRet result := fun A a => Ok a.
#[global] Instance result_bind : MBind result := fun A B k r => bind r k.

(** [r[k]] where [r] is itself the outcome of an earlier subscript, so
    that [Ok v ⟦a⟧ ⟦b⟧] reads like the chain [v[a][b]]. *)
Definition subscript (r : result pyval) (k : string) : result pyval :=
  x ← r; getitem x k.

End Py.

Export Py.

Notation "r ⟦ k ⟧" := (subscript r k) (at level 1, left associativity, format "r ⟦ k ⟧").

(** ** The hardcoded tables

    The two dictionary literals of [get_standard_strategies] and
    [get_standard_next_steps]: three levels of [str] keys above a list of
    [str].  No key occurs twice at any level of either literal. *)

Module Tables.

Definition strategies : gmap string (gmap string (gmap string (list string))) :=
  list_to_map [
    ("New Startup/Product Launch", list_to_map [
      ("Bootstrapping (No external funding)", list_to_map [
        ("Get Users or Customers",
         [ "Focus on founder-led storytelling through guest podcasts and social content";
           "Create a limited beta program with exclusive perks to drive early adoption";
           "Build direct relationships with early users for feedback and testimonials" ]);
        ("Attract Investors",
         [ "Document your traction journey publicly to showcase momentum";
           "Create case studies showing early customer impact";
           "Target niche industry events where investors in your space gather" ]);
        ("Build Press & Awareness",
         [ "Craft a compelling founder story that ties to current trends";
           "Pitch to industry-specific publications rather than mainstream media";
           "Create shareable content that showcases your unique approach" ]);
        ("Create Industry Influence",
         [ "Start a focused content series solving key problems in your industry";
           "Join relevant communities as a contributor, not just a promoter";
           "Collaborate with complementary startups for wider reach" ])
      ]);
      ("Raised under $1M", list_to_map [
        ("Get Users or Customers",
         [ "Run targeted ad experiments to identify high-converting messages";
           "Create an exclusive waitlist with referral incentives";
           "Partner with complementary products for shared launches" ]);
        ("Attract Investors",
         [ "Build a data-driven pitch showing early traction metrics";
           "Create investor-specific content demonstrating market understanding";
           "Get warm introductions through strategic advisory relationships" ]);
        ("Build Press & Awareness",
         [ "Position your funding as validation for a larger trend story";
           "Create data-driven content that journalists can easily reference";
           "Build relationships with 3-5 key reporters in your space" ]);
        ("Create Industry Influence",
         [ "Participate in industry panels and speaking opportunities";
           "Launch a small but high-quality thought leadership publication";
           "Create a community initiative that positions you as a connector" ])
      ]);
      ("Raised $1M-$3M", list_to_map [
        ("Get Users or Customers",
         [ "Scale successful acquisition channels with increased ad spend";
           "Implement a full-featured referral program with tiered rewards";
           "Execute co-marketing campaigns with established partners" ]);
        ("Attract Investors",
         [ "Create quarterly investor updates showcasing growth metrics";
           "Secure strategic advisors who can connect you to your next round";
           "Generate press coverage highlighting your unique market position" ]);
        ("Build Press & Awareness",
         [ "Hire a specialized PR firm for a coordinated media campaign";
           "Create a newsworthy data report about your industry";
           "Launch a creative campaign designed for social sharing" ]);
        ("Create Industry Influence",
         [ "Host industry roundtables with key decision-makers";
           "Launch an authoritative content platform or podcast";
           "Create an industry index or report that becomes a reference point" ])
      ]);
      ("Raised $3M+", list_to_map [
        ("Get Users or Customers",
         [ "Implement omnichannel marketing with consistent brand messaging";
           "Launch high-production value content series";
           "Execute high-visibility partnerships with market leaders" ]);
        ("Attract Investors",
         [ "Position your company as category-defining through thought leadership";
           "Host exclusive investor-focused events showcasing your vision";
           "Generate tier-one press coverage highlighting growth metrics" ]);
        ("Build Press & Awareness",
         [ "Execute a comprehensive PR strategy across multiple channels";
           "Create viral-optimized content campaigns with significant budget";
           "Sponsor or create signature industry events" ]);
        ("Create Industry Influence",
         [ "Position your CEO as an industry visionary through speaking and publishing";
           "Create a proprietary methodology or framework for your industry";
           "Launch a foundation or initiative addressing industry-wide challenges" ])
      ])
    ]);
    ("Brand Repositioning (Rebrand or Pivot)", list_to_map [
      ("Bootstrapping (No external funding)", list_to_map [
        ("Get Users or Customers",
         [ "Craft a clear narrative explaining the 'why' behind your repositioning";
           "Create before/after content showing the evolution";
           "Personally reach out to existing customers with special loyalty offers" ]);
        ("Attract Investors",
         [ "Frame your repositioning as strategic market adaptation";
           "Show early validation metrics from the new direction";
           "Create case studies showing the problem your new positioning solves" ]);
        ("Build Press & Awareness",
         [ "Pitch your pivot as a response to market insights";
           "Create visual assets that tell your transformation story";
           "Leverage customer testimonials to validate the change" ]);
        ("Create Industry Influence",
         [ "Document your repositioning journey as a learning resource";
           "Position the change as thought leadership on where the market is headed";
           "Host discussions around the challenges your new position addresses" ])
      ])
    ]);
    ("Funding Announcement", list_to_map [
      ("Raised under $1M", list_to_map [
        ("Get Users or Customers",
         [ "Frame your funding as validation of your customer-first approach";
           "Create special offers for customers who join during your funding momentum";
           "Use funding press to drive traffic to high-converting landing pages" ]);
        ("Attract Investors",
         [ "Position this round as the foundation for a bigger vision";
           "Create investor-specific content showcasing your capital efficiency";
           "Document key milestones achieved with minimal funding" ]);
        ("Build Press & Awareness",
         [ "Craft a funding announcement that tells a larger market story";
           "Secure quotes from investors explaining why they invested";
           "Create a funding FAQ addressing common questions" ]);
        ("Create Industry Influence",
         [ "Share insights about your fundraising process to help other founders";
           "Host a small event bringing together investors and industry peers";
           "Launch a thought leadership piece about your industry's funding landscape" ])
      ])
    ]);
    ("Major Partnership or Publicity Push", list_to_map [
      ("Bootstrapping (No external funding)", list_to_map [
        ("Get Users or Customers",
         [ "Design partnership terms that prioritize customer acquisition";
           "Create exclusive offers for your partner's audience";
           "Focus on partners with highly engaged audiences rather than size" ]);
        ("Attract Investors",
         [ "Structure partnerships that demonstrate market validation";
           "Secure case studies from partners highlighting your value";
           "Use partnerships to generate data points for investor pitches" ]);
        ("Build Press & Awareness",
         [ "Create joint press releases with compelling narrative hooks";
           "Design visual content that both partners can share";
           "Host a joint webinar or event to showcase the partnership" ]);
        ("Create Industry Influence",
         [ "Co-create thought leadership content with your partner";
           "Launch a joint research initiative or industry report";
           "Create a partner advisory board for ongoing collaboration" ])
      ])
    ])
  ].

Definition next_steps : gmap string (gmap string (gmap string (list string))) :=
  list_to_map [
    ("Bootstrapping (No external funding)", list_to_map [
      ("Yes, we have an engaged community", list_to_map [
        ("Scaling & repeatable traction",
         [ "1. Analyze which launch channels delivered highest ROI";
           "2. Document repeatable processes for your best-performing channels";
           "3. Create a lean content calendar focused on high-conversion topics" ]);
        ("Investor relations & positioning for next raise",
         [ "1. Build a simple investor update template highlighting key metrics";
           "2. Identify 10-15 potential angels or micro-VCs aligned with your vision";
           "3. Create a basic pitch deck focused on traction and capital efficiency" ]);
        ("Optimizing based on customer feedback",
         [ "1. Implement a simple feedback collection system";
           "2. Identify the top 3 points of friction in your current experience";
           "3. Create a weekly iteration schedule focused on quick wins" ]);
        ("Sustaining press & industry visibility",
         [ "1. Develop a simple PR calendar with monthly goals";
           "2. Create a content repurposing system to maximize reach";
           "3. Join 3-5 communities where your audience gathers" ])
      ])
    ])
  ].

(** The list returned by the [except KeyError] branch of
    [get_standard_strategies]. *)
Definition default_strategies : list string :=
  [ "Create a compelling story that connects your mission to customer needs";
    "Focus on 1-2 high-impact marketing channels that align with your resources";
    "Build relationships with influencers and partners in your industry" ].

(** The list returned by the [except KeyError] branch of
    [get_standard_next_steps]. *)
Definition default_next_steps : list string :=
  [ "1. Document what worked and what didn't in your launch";
    "2. Focus on optimizing your best-performing channel";
    "3. Create a 30-day action plan based on initial results" ].

(** [m[k]] on a dictionary whose values all have the type [V]. *)
Definition getkey {V : Type} (m : gmap string V) (k : string) : result V :=
  match m !! k with
  | Some x => Ok x
  | None => Raise KeyError
  end.

(** [table[k1][k2][k3]] on a literal of the shape above: the only way it
    can fail is a [KeyError]. *)
Definition lookup3 (table : gmap string (gmap string (gmap string (list string))))
    (k1 k2 k3 : string) : result pyval :=
  by_k2 ← getkey table k1;
  by_k3 ← getkey by_k2 k2;
  leaf ← getkey by_k3 k3;
  Ok (strs leaf).

End Tables.

(** ** Milestone rules *)

Record Milestone : Type := {
  name : string;
  description : string;
  timeframe : string
}.

Definition basic_milestones : list Milestone :=
  [
    {| name := "Messaging Validation";
       description := "Complete customer interviews and finalize messaging";
       timeframe := "4 weeks before launch" |};
    {| name := "Content Creation Deadline";
       description := "Finalize all launch content and materials";
       timeframe := "2 weeks before launch" |};
    {| name := "Launch Day";
       description := "Official launch date";
       timeframe := "Launch day" |};
    {| name := "Post-Launch Analysis";
       description := "Analyze launch metrics and gather feedback";
       timeframe := "1 week after launch" |} ].

Definition type_specific_milestones (launch_type : string) : list Milestone :=
  if contains "New Startup/Product Launch" launch_type then
    [
      {| name := "Beta Testing";
         description := "Complete beta testing with early users";
         timeframe := "3 weeks before launch" |};
      {| name := "Product Finalization";
         description := "Freeze features and finalize product";
         timeframe := "2 weeks before launch" |} ]
  else if contains "Brand Repositioning" launch_type then
    [
      {| name := "Brand Assets Complete";
         description := "Finalize all new brand assets and guidelines";
         timeframe := "3 weeks before launch" |};
      {| name := "Team Alignment";
         description := "Ensure team is aligned on new positioning";
         timeframe := "2 weeks before launch" |} ]
  else if contains "Funding Announcement" launch_type then
    [
      {| name := "Press Release Draft";
         description := "Create first draft of funding press release";
         timeframe := "3 weeks before launch" |};
      {| name := "Investor Coordination";
         description := "Finalize coordination with investors on announcement";
         timeframe := "2 weeks before launch" |} ]
  else if contains "Partnership" launch_type then
    [
      {| name := "Partnership Agreement";
         description := "Finalize all partnership terms and agreements";
         timeframe := "3 weeks before launch" |};
      {| name := "Joint Marketing Plan";
         description := "Finalize joint marketing plan with partner";
         timeframe := "2 weeks before launch" |} ]
  else [].

Definition funding_specific_milestones (funding_status : string) : list Milestone :=
  if contains "Bootstrapping" funding_status then
    [
      {| name := "Resource Allocation";
         description := "Finalize budget and resource allocation for launch";
         timeframe := "3 weeks before launch" |} ]
  else if contains "under $1M" funding_status then
    [
      {| name := "Growth Metrics Setup";
         description := "Set up tracking for key growth metrics";
         timeframe := "2 weeks before launch" |} ]
  else if contains "$1M-$3M" funding_status then
    [
      {| name := "PR Firm Briefing";
         description := "Brief PR firm on launch strategy and timeline";
         timeframe := "4 weeks before launch" |};
      {| name := "Media Outreach";
         description := "Begin outreach to media contacts";
         timeframe := "2 weeks before launch" |} ]
  else if contains "$3M+" funding_status then
    [
      {| name := "Marketing Campaign Launch";
         description := "Launch pre-launch marketing campaign";
         timeframe := "4 weeks before launch" |};
      {| name := "Industry Event Planning";
         description := "Finalize plans for launch event";
         timeframe := "3 weeks before launch" |} ]
  else [].

Definition generate_milestone_suggestions (launch_type funding_status : string)
    : list Milestone :=
  basic_milestones ++ type_specific_milestones launch_type
                   ++ funding_specific_milestones funding_status.

(** ** The resolver *)

Definition get_standard_strategies
    (launch_type funding_status primary_goal : string)
    (external_strategies : pyval) : result pyval :=
  (* if external_strategies and 'launch_strategies' in external_strategies: *)
  cond ← (if truthy external_strategies
          then py_in "launch_strategies" external_strategies
          else Ok false);
  (* try: return external[...][...][...][...]   except KeyError: pass *)
  returned ← (if cond : bool
              then try_except_KeyError
                     (leaf ← (Ok external_strategies)
                               ⟦"launch_strategies"⟧⟦launch_type⟧⟦funding_status⟧⟦primary_goal⟧;
                      Ok (Some leaf))
                     (Ok None)
              else Ok None);
  match returned with
  | Some leaf => Ok leaf
  | None =>
      try_except_KeyError
        (Tables.lookup3 Tables.strategies launch_type funding_status primary_goal)
        (Ok (strs Tables.default_strategies))
  end.

Definition get_standard_next_steps
    (funding_status audience_readiness post_launch_priority : string)
    (external_strategies : pyval) : result pyval :=
  cond ← (if truthy external_strategies
          then py_in "next_steps" external_strategies
          else Ok false);
  returned ← (if cond : bool
              then try_except_KeyError
                     (leaf ← (Ok external_strategies)
                               ⟦"next_steps"⟧⟦funding_status⟧⟦audience_readiness⟧⟦post_launch_priority⟧;
                      Ok (Some leaf))
                     (Ok None)
              else Ok None);
  match returned with
  | Some leaf => Ok leaf
  | None =>
      try_except_KeyError
        (Tables.lookup3 Tables.next_steps funding_status audience_readiness post_launch_priority)
        (Ok (strs Tables.default_next_steps))
  end.

(** ** Form data and plans *)

(** The form dictionary once every step of the form has been answered:
    the selections are the chosen option labels. *)
Module Form.
Record t : Type := {
  first_name : string;
  startup_name : string;
  email : string;
  messaging_tested : string;
  launch_type : string;
  funding_status : string;
  primary_goal : string;
  audience_readiness : string;
  post_launch_priority : string;
  industry : option string
}.
End Form.

Module Summary.
Record t : Type := {
  launch_type : string;
  funding_status : string;
  primary_goal : string
}.
End Summary.

Record Plan : Type := {
  first_name : string;
  startup_name : string;
  messaging_advice : pyval;
  launch_summary : Summary.t;
  recommended_strategies : pyval;
  next_steps : pyval;
  milestone_suggestions : list Milestone
}.


(** ** The AI collaborator *)

Module AI.

(** The three functions [generate_launch_plan] imports from
    [utils.ai_generator].  That module is not among the sources, so the
    assembler is written against this interface; a call may return or
    raise. *)
Record generator : Type := {
  generate_ai_strategies : Form.t -> pyval -> result pyval;
  generate_ai_next_steps : Form.t -> pyval -> result pyval;
  generate_ai_messaging_advice : string -> result pyval
}.

(** Modelled from the spec: the generation service behind
    [utils/ai_generator.py], which is not among the sources.  One attempt
    per field, with three kinds of outcome. *)
Inductive outcome : Type :=
| Raises
| TimesOut
| Returns (content : pyval).

Definition is_str (v : pyval) : bool :=
  match v with PStr _ => true | _ => false end.

(** Modelled from the spec: the shape expected of a result at the
    strategies and next-steps call sites of the absent module, a
    non-empty list of strings. *)
Definition nonempty_str_list (v : pyval) : bool :=
  match v with
  | PList (x :: l) => forallb is_str (x :: l)
  | _ => false
  end.

(** Modelled from the spec: the shape expected of a result at the
    messaging-advice call site of the absent module, a single non-empty
    string. *)
Definition nonempty_str (v : pyval) : bool :=
  match v with
  | PStr s => negb (String.eqb s "")
  | _ => false
  end.

(** Modelled from the spec: [AIEnhancer.enhance], absent from the
    sources.  A well-formed, non-empty result of the expected shape
    replaces the fallback entirely; anything else yields the fallback
    unchanged. *)
Definition enhance (expected : pyval -> bool) (o : outcome) (fallback : pyval) : pyval :=
  match o with
  | Returns content => if expected content then content else fallback
  | Raises | TimesOut => fallback
  end.

(** Modelled from the spec: the failures of the absent generation
    service, which raised, timed out, or returned something empty or
    malformed. *)
Definition failed (expected : pyval -> bool) (o : outcome) : bool :=
  match o with
  | Returns content => negb (expected content)
  | Raises | TimesOut => true
  end.

(** Modelled from the spec: what the absent generation service answers
    at each call site during one plan generation. *)
Record service : Type := {
  strategies_for : Form.t -> outcome;
  next_steps_for : Form.t -> outcome;
  advice_for : string -> outcome
}.

(** Modelled from the spec: the absent module [utils/ai_generator.py] as
    the enhancer over a generation service; the fallback of the
    messaging advice is one of a fixed set of canned sentences keyed by
    [messaging_tested]. *)
Definition enhancer (canned_advice : string -> string) (svc : service) : generator :=
  {| generate_ai_strategies := fun form_data fallback_strategies =>
       Ok (enhance nonempty_str_list (strategies_for svc form_data) fallback_strategies);
     generate_ai_next_steps := fun form_data fallback_steps =>
       Ok (enhance nonempty_str_list (next_steps_for svc form_data) fallback_steps);
     generate_ai_messaging_advice := fun messaging_tested =>
       Ok (enhance nonempty_str (advice_for svc messaging_tested)
                   (PStr (canned_advice messaging_tested))) |}.

End AI.

(** ** The plan assembler *)

Definition generate_launch_plan (ai : AI.generator) (form_data : Form.t)
    (external_strategies : pyval) : result Plan :=
  messaging_advice ←
    AI.generate_ai_messaging_advice ai (Form.messaging_tested form_data);
  standard_strategies ←
    get_standard_strategies (Form.launch_type form_data) (Form.funding_status form_data)
                            (Form.primary_goal form_data) external_strategies;
  recommended_strategies ←
    AI.generate_ai_strategies ai form_data standard_strategies;
  standard_next_steps ←
    get_standard_next_steps (Form.funding_status form_data) (Form.audience_readiness form_data)
                            (Form.post_launch_priority form_data) external_strategies;
  next_steps ← AI.generate_ai_next_steps ai form_data standard_next_steps;
  let milestone_suggestions :=
    generate_milestone_suggestions (Form.launch_type form_data) (Form.funding_status form_data) in
  Ok {| first_name := Form.first_name form_data;
        startup_name := Form.startup_name form_data;
        messaging_advice := messaging_advice;
        launch_summary := {| Summary.launch_type := Form.launch_type form_data;
                             Summary.funding_status := Form.funding_status form_data;
                             Summary.primary_goal := Form.primary_goal form_data |};
        recommended_strategies := recommended_strategies;
        next_steps := next_steps;
        milestone_suggestions := milestone_suggestions |}.

(** ** Shapes of the external mapping *)

Definition as_dict (v : pyval) : option (gmap string pyval) :=
  match v with
  | PDict d => Some d
  | _ => None
  end.

(** The value found by walking [keys] down from [v], every value on the
    way being a dictionary that holds the next key. *)
Fixpoint walk (v : pyval) (keys : list string) : option pyval :=
  match keys with
  | [] => Some v
  | k :: rest =>
      match as_dict v with
      | Some d => match d !! k with
                  | Some x => walk x rest
                  | None => None
                  end
      | None => None
      end
  end.

(** The leaf of the external mapping at a three-level key path below
    one of its top-level sections. *)
Definition external_leaf (section k1 k2 k3 : string) (ext : pyval) : option pyval :=
  walk ext [section; k1; k2; k3].

(** A mapping nested [depth] levels deep: dictionaries all the way down
    to that depth, whatever lies below. *)
Fixpoint nested_mapping (depth : nat) (v : pyval) : bool :=
  match depth with
  | O => true
  | S n =>
      match v with
      | PDict d => forallb (fun kv => nested_mapping n kv.2) (map_to_list d)
      | _ => false
      end
  end.

(** The shape the engine is written for: no external data at all, or a
    dictionary whose [section] entry, when there is one, is a three-level
    nested mapping. *)
Definition well_shaped_at (section : string) (ext : pyval) : bool :=
  match ext with
  | PNone => true
  | PDict d => match d !! section with
               | Some v => nested_mapping 3 v
               | None => true
               end
  | _ => false
  end.

Definition well_shaped (ext : pyval) : bool :=
  well_shaped_at "launch_strategies" ext && well_shaped_at "next_steps" ext.

Definition nonempty_list (v : pyval) : bool :=
  match v with
  | PList (_ :: _) => true
  | _ => false
  end.

(** The first tier as both resolvers write it: the guard, then the
    subscript chain under [try ... except KeyError: pass].  [Some leaf]
    stands for the [return] inside the [try]. *)
Definition external_tier (section k1 k2 k3 : string) (ext : pyval)
    : result (option pyval) :=
  cond ← (if truthy ext then py_in section ext else Ok false);
  if cond : bool
  then try_except_KeyError
         (leaf ← (Ok ext)⟦section⟧⟦k1⟧⟦k2⟧⟦k3⟧; Ok (Some leaf))
         (Ok None)
  else Ok None.

(** The subscript chain [r[k1][k2]...] over a list of keys. *)
Fixpoint chain (r : result pyval) (keys : list string) : result pyval :=
  match keys with
  | [] => r
  | k :: rest => chain r⟦k⟧ rest
  end.

(** ** Shapes of the hardcoded tables *)

(** The leaf of a hardcoded table at a three-level key path. *)
Definition static_leaf (table : gmap string (gmap string (gmap string (list string))))
    (k1 k2 k3 : string) : option (list string) :=
  match table !! k1 with
  | Some by_k2 => match by_k2 !! k2 with
                  | Some by_k3 => by_k3 !! k3
                  | None => None
                  end
  | None => None
  end.

(** What the second and third tiers yield together. *)
Definition static_or_default (table : gmap string (gmap string (gmap string (list string))))
    (default : list string) (k1 k2 k3 : string) : pyval :=
  match static_leaf table k1 k2 k3 with
  | Some leaf => strs leaf
  | None => strs default
  end.

(** Every leaf of a hardcoded table passes the test [ok]. *)
Definition all_leaves (ok : list string -> bool)
    (table : gmap string (gmap string (gmap string (list string)))) : bool :=
  forallb (fun e1 : string * gmap string (gmap string (list string)) =>
    forallb (fun e2 : string * gmap string (list string) =>
      forallb (fun e3 : string * list string => ok e3.2) (map_to_list e2.2))
      (map_to_list e1.2))
    (map_to_list table).

Definition three_items (l : list string) : bool := Nat.eqb (length l) 3.

(** ** The milestone rules of the specification *)

(** The rule set as the specification describes it: per dimension, a
    fixed list of categories, each a marker substring with the milestones
    it layers onto the base sequence. *)
Definition launch_type_rules : list (string * list Milestone) :=
  [
    ("New Startup/Product Launch",
     [
       {| name := "Beta Testing";
          description := "Complete beta testing with early users";
          timeframe := "3 weeks before launch" |};
       {| name := "Product Finalization";
          description := "Freeze features and finalize product";
          timeframe := "2 weeks before launch" |} ]);
    ("Brand Repositioning",
     [
       {| name := "Brand Assets Complete";
          description := "Finalize all new brand assets and guidelines";
          timeframe := "3 weeks before launch" |};
       {| name := "Team Alignment";
          description := "Ensure team is aligned on new positioning";
          timeframe := "2 weeks before launch" |} ]);
    ("Funding Announcement",
     [
       {| name := "Press Release Draft";
          description := "Create first draft of funding press release";
          timeframe := "3 weeks before launch" |};
       {| name := "Investor Coordination";
          description := "Finalize coordination with investors on announcement";
          timeframe := "2 weeks before launch" |} ]);
    ("Partnership",
     [
       {| name := "Partnership Agreement";
          description := "Finalize all partnership terms and agreements";
          timeframe := "3 weeks before launch" |};
       {| name := "Joint Marketing Plan";
          description := "Finalize joint marketing plan with partner";
          timeframe := "2 weeks before launch" |} ]) ].

Definition funding_status_rules : list (string * list Milestone) :=
  [
    ("Bootstrapping",
     [
       {| name := "Resource Allocation";
          description := "Finalize budget and resource allocation for launch";
          timeframe := "3 weeks before launch" |} ]);
    ("under $1M",
     [
       {| name := "Growth Metrics Setup";
          description := "Set up tracking for key growth metrics";
          timeframe := "2 weeks before launch" |} ]);
    ("$1M-$3M",
     [
       {| name := "PR Firm Briefing";
          description := "Brief PR firm on launch strategy and timeline";
          timeframe := "4 weeks before launch" |};
       {| name := "Media Outreach";
          description := "Begin outreach to media contacts";
          timeframe := "2 weeks before launch" |} ]);
    ("$3M+",
     [
       {| name := "Marketing Campaign Launch";
          description := "Launch pre-launch marketing campaign";
          timeframe := "4 weeks before launch" |};
       {| name := "Industry Event Planning";
          description := "Finalize plans for launch event";
          timeframe := "3 weeks before launch" |} ]) ].

(** Selection by substring match: the milestones of the first category,
    in the order of the rule list, whose marker occurs in the label;
    nothing when no marker occurs. *)
Definition first_match (rules : list (string * list Milestone)) (label : string)
    : list Milestone :=
  match find (fun rule => contains rule.1 label) rules with
  | Some rule => rule.2
  | None => []
  end.

(** No marker of the rule list occurs in the label. *)
Definition no_match (rules : list (string * list Milestone)) (label : string) : bool :=
  forallb (fun rule => negb (contains rule.1 label)) rules.


(** ** Contracts of the AI collaborator *)

(** Every enhancement made for this form comes back as its fallback,
    the messaging advice as the canned sentence. *)
Definition falls_back (canned_advice : string -> string) (ai : AI.generator)
    (form_data : Form.t) : Prop :=
  AI.generate_ai_messaging_advice ai (Form.messaging_tested form_data)
    = Ok (PStr (canned_advice (Form.messaging_tested form_data))) /\
  (forall fallback, AI.generate_ai_strategies ai form_data fallback = Ok fallback) /\
  (forall fallback, AI.generate_ai_next_steps ai form_data fallback = Ok fallback).

(** The collaborator never raises, and what it hands back for the
    strategies and the next steps is the fallback or a non-empty list. *)
Definition dependable (ai : AI.generator) : Prop :=
  (forall messaging_tested,
     exists advice, AI.generate_ai_messaging_advice ai messaging_tested = Ok advice) /\
  (forall form_data fallback,
     exists v, AI.generate_ai_strategies ai form_data fallback = Ok v /\
               (v = fallback \/ nonempty_list v = true)) /\
  (forall form_data fallback,
     exists v, AI.generate_ai_next_steps ai form_data fallback = Ok v /\
               (v = fallback \/ nonempty_list v = true)).

(** The plan when nothing is enhanced. *)
Definition standard_plan (canned_advice : string -> string) (form_data : Form.t)
    (standard_strategies standard_next_steps : pyval) : Plan :=
  {| first_name := Form.first_name form_data;
     startup_name := Form.startup_name form_data;
     messaging_advice := PStr (canned_advice (Form.messaging_tested form_data));
     launch_summary := {| Summary.launch_type := Form.launch_type form_data;
                          Summary.funding_status := Form.funding_status form_data;
                          Summary.primary_goal := Form.primary_goal form_data |};
     recommended_strategies := standard_strategies;
     next_steps := standard_next_steps;
     milestone_suggestions :=
       generate_milestone_suggestions (Form.launch_type form_data)
                                      (Form.funding_status form_data) |}.

(** ** Sample inputs *)

Module Samples.

(** An override file that redefines a combination the hardcoded table
    also has, and leaves everything else out. *)
Definition override : pyval :=
  PDict {[ "launch_strategies" :=
    PDict {[ "New Startup/Product Launch" :=
      PDict {[ "Bootstrapping (No external funding)" :=
        PDict {[ "Get Users or Customers" :=
          strs [ "Post a weekly build log"; "Offer lifetime deals" ] ]} ]} ]} ]}.

(** An override file whose tables stop one level short: the strategies
    are listed per launch type, the next steps are a note per funding
    status. *)
Definition shallow : pyval :=
  PDict (<[ "launch_strategies" :=
            PDict {[ "New Startup/Product Launch" := strs [ "Post a weekly build log" ] ]} ]>
         {[ "next_steps" :=
            PDict {[ "Bootstrapping (No external funding)" := PStr "to be written" ]} ]}).

(** An override file with a combination whose list is empty. *)
Definition hollow : pyval :=
  PDict {[ "launch_strategies" :=
    PDict {[ "Funding Announcement" :=
      PDict {[ "Raised $3M+" :=
        PDict {[ "Attract Investors" := PList [] ]} ]} ]} ]}.

Definition founder : Form.t :=
  {| Form.first_name := "Ada";
     Form.startup_name := "Looms";
     Form.email := "ada@looms.example";
     Form.messaging_tested := "Yes, with real customers";
     Form.launch_type := "New Startup/Product Launch";
     Form.funding_status := "Bootstrapping (No external funding)";
     Form.primary_goal := "Get Users or Customers";
     Form.audience_readiness := "Yes, we have an engaged community";
     Form.post_launch_priority := "Scaling & repeatable traction";
     Form.industry := None |}.

Definition announcer : Form.t :=
  {| Form.first_name := "Grace";
     Form.startup_name := "Compilers Inc";
     Form.email := "grace@compilers.example";
     Form.messaging_tested := "Not yet";
     Form.launch_type := "Funding Announcement";
     Form.funding_status := "Raised $3M+";
     Form.primary_goal := "Attract Investors";
     Form.audience_readiness := "No, starting from scratch";
     Form.post_launch_priority := "Sustaining press & industry visibility";
     Form.industry := Some "Developer tools" |}.

Definition canned (messaging_tested : string) : string :=
  if contains "Yes" messaging_tested
  then "Keep refining your message with customers."
  else "Test your messaging before you launch.".

(** A collaborator that hands every fallback back. *)
Definition offline : AI.generator :=
  {| AI.generate_ai_strategies := fun _ fallback_strategies => Ok fallback_strategies;
     AI.generate_ai_next_steps := fun _ fallback_steps => Ok fallback_steps;
     AI.generate_ai_messaging_advice := fun messaging_tested =>
       Ok (PStr (canned messaging_tested)) |}.

(** A generation service that is down. *)
Definition unreachable : AI.service :=
  {| AI.strategies_for := fun _ => AI.Raises;
     AI.next_steps_for := fun _ => AI.Raises;
     AI.advice_for := fun _ => AI.Raises |}.

(** A generation service that answers, but never with usable content. *)
Definition garbled : AI.service :=
  {| AI.strategies_for := fun _ => AI.Returns (PList []);
     AI.next_steps_for := fun _ => AI.Returns (PDict ∅);
     AI.advice_for := fun _ => AI.TimesOut |}.

End Samples.


(** ** Coverage of the hardcoded tables *)

Definition in_list (s : string) (l : list string) : bool := existsb (String.eqb s) l.

(** The combinations for which [get_standard_strategies] holds a list of
    its own: every funding status for a new product launch, one funding
    status for each of the other launch types, and the four goals. *)
Definition tailored_strategies (launch_type funding_status primary_goal : string) : bool :=
  in_list primary_goal
    [ "Get Users or Customers"; "Attract Investors"; "Build Press & Awareness";
      "Create Industry Influence" ]
  && (if String.eqb launch_type "New Startup/Product Launch" then
        in_list funding_status
          [ "Bootstrapping (No external funding)"; "Raised under $1M"; "Raised $1M-$3M";
            "Raised $3M+" ]
      else if String.eqb launch_type "Brand Repositioning (Rebrand or Pivot)" then
        String.eqb funding_status "Bootstrapping (No external funding)"
      else if String.eqb launch_type "Funding Announcement" then
        String.eqb funding_status "Raised under $1M"
      else if String.eqb launch_type "Major Partnership or Publicity Push" then
        String.eqb funding_status "Bootstrapping (No external funding)"
      else false).

(** The combinations for which [get_standard_next_steps] holds a list of
    its own. *)
Definition tailored_next_steps
    (funding_status audience_readiness post_launch_priority : string) : bool :=
  String.eqb funding_status "Bootstrapping (No external funding)"
  && String.eqb audience_readiness "Yes, we have an engaged community"
  && in_list post_launch_priority
       [ "Scaling & repeatable traction";
         "Investor relations & positioning for next raise";
         "Optimizing based on customer feedback";
         "Sustaining press & industry visibility" ].

(** Every key path of a hardcoded table passes the test [ok]. *)
Definition all_paths (ok : string -> string -> string -> bool)
    (table : gmap string (gmap string (gmap string (list string)))) : bool :=
  forallb (fun e1 : string * gmap string (gmap string (list string)) =>
    forallb (fun e2 : string * gmap string (list string) =>
      forallb (fun e3 : string * list string => ok e1.1 e2.1 e3.1) (map_to_list e2.2))
      (map_to_list e1.2))
    (map_to_list table).

(** External data that is not a dictionary and yet gets a resolver into
    trouble: it counts as true, and the search for the section name
    either cannot be made (a boolean, a number) or succeeds (a string
    containing the name, a list holding it), which sends the resolver
    into the subscript chain. *)
Definition trips_guard (section : string) (ext : pyval) : bool :=
  truthy ext &&
  match ext with
  | PBool _ | PNum _ => true
  | PStr s => contains section s
  | PList l => existsb (str_eq section) l
  | PNone | PDict _ => false
  end.

Definition is_dict (v : pyval) : bool :=
  match v with PDict _ => true | _ => false end.

(** An override file for the next steps only, with one combination the
    hardcoded table has and one it has not. *)
Definition next_steps_override : pyval :=
  PDict {[ "next_steps" :=
    PDict (<[ "Bootstrapping (No external funding)" :=
              PDict {[ "Yes, we have an engaged community" :=
                PDict {[ "Scaling & repeatable traction" :=
                  strs [ "1. Hire a growth lead" ] ]} ]} ]>
           {[ "Raised $3M+" :=
              PDict {[ "No, starting from scratch" :=
                PDict {[ "Sustaining press & industry visibility" :=
                  strs [ "1. Retain a PR agency"; "2. Plan a quarterly announcement" ] ]} ]} ]}) ]}.

(** ** The form of [streamlit_app.py] *)

Module App.

(** The [options] of [step_2]: the messaging labels. *)
Definition step_2_options : list string :=
  [ "✅ Yes, I've gotten direct feedback on my messaging";
    "🤔 Sort of... I've talked to people, but nothing structured";
    "❌ No, I haven't tested it yet" ].

(** The [options] of [step_3]: the launch type labels. *)
Definition step_3_options : list string :=
  [ "🚀 New Startup/Product Launch";
    "🔄 Brand Repositioning (Rebrand or Pivot)";
    "💰 Funding Announcement";
    "📢 Major Partnership or Publicity Push" ].

(** The [options] of [step_4]: the funding status labels. *)
Definition step_4_options : list string :=
  [ "🚀 Bootstrapping (No external funding, self-funded)";
    "🌱 Raised under $1M (Likely still raising, early-stage)";
    "📈 Raised $1M-$3M (Have 12-18 months of runway)";
    "🏆 Raised $3M+ (Series A+; established growth strategy)" ].

(** The [options] of [step_5]: the primary goal labels. *)
Definition step_5_options : list string :=
  [ "🚀 Get Users or Customers";
    "💰 Attract Investors";
    "🎙 Build Press & Awareness";
    "🌎 Create Industry Influence" ].

(** The [options] of [step_6]: the audience readiness labels. *)
Definition step_6_options : list string :=
  [ "✅ Yes, we have an engaged community";
    "⚡ We have a small following but need more traction";
    "❌ No, we're starting from scratch" ].

(** The [options] of [step_7]: the post-launch priority labels. *)
Definition step_7_options : list string :=
  [ "📈 Scaling & repeatable traction (growth systems)";
    "💰 Investor relations & positioning for next raise";
    "🛠 Optimizing based on customer feedback";
    "🔥 Sustaining press & industry visibility" ].

(** The dictionary [industry_emojis] of [step_8]. *)
Definition industry_emojis : gmap string string :=
  list_to_map
    [ ("SaaS", "💻");
      ("D2C / E-commerce", "🛒");
      ("Fintech", "💰");
      ("Healthcare", "🏥");
      ("Enterprise Software", "🏢");
      ("AI/ML", "🤖");
      ("Productivity Tools", "⚡") ].

(** [st.session_state.form_data]: a dictionary with the same ten keys
    from its initialisation on; [None] stands for Python's None. *)
Record form_dict : Type := {
  first_name : string;
  startup_name : string;
  messaging_tested : option string;
  launch_type : option string;
  funding_status : option string;
  primary_goal : option string;
  audience_readiness : option string;
  post_launch_priority : option string;
  industry : option string;
  email : string
}.

(** The five entries of [st.session_state] the application keeps. *)
Record session : Type := {
  step : Z;
  form_data : form_dict;
  generated_plan : option Plan;
  email_sent : bool;
  show_calendar : bool
}.

(** The session as the module-level initialisation leaves it. *)
Definition initial : session :=
  {| step := 1;
     form_data := {| first_name := "";
                     startup_name := "";
                     messaging_tested := None;
                     launch_type := None;
                     funding_status := None;
                     primary_goal := None;
                     audience_readiness := None;
                     post_launch_priority := None;
                     industry := None;
                     email := "" |};
     generated_plan := None;
     email_sent := false;
     show_calendar := false |}.

Definition reset_form (s : session) : session :=
  {| form_data := {| first_name := "";
                     startup_name := "";
                     messaging_tested := None;
                     launch_type := None;
                     funding_status := None;
                     primary_goal := None;
                     audience_readiness := None;
                     post_launch_priority := None;
                     industry := None;
                     email := "" |};
     generated_plan := None;
     email_sent := false;
     show_calendar := false;
     step := 1 |}.

(** [form_data[...] = ...; step += 1] as every [on_next] ends. *)
Definition store_and_advance (f : form_dict) (s : session) : session :=
  {| step := step s + 1;
     form_data := f;
     generated_plan := generated_plan s;
     email_sent := email_sent s;
     show_calendar := show_calendar s |}.

(** [not v] for a text input. *)
Definition blank (v : string) : bool := String.eqb v "".

(** [next_disabled] of [step_1]. *)
Definition step_1_next_disabled (first_name email startup_name : string) : bool :=
  blank first_name || blank email || blank startup_name.

(** [on_next] of [step_1], on the three text inputs. *)
Definition step_1_on_next (first_name' email' startup_name' : string) (s : session) : session :=
  if negb (contains "@" email') || negb (contains "." email')
  then s
  else let f := form_data s in
       store_and_advance
         {| first_name := first_name';
            startup_name := startup_name';
            messaging_tested := messaging_tested f;
            launch_type := launch_type f;
            funding_status := funding_status f;
            primary_goal := primary_goal f;
            audience_readiness := audience_readiness f;
            post_launch_priority := post_launch_priority f;
            industry := industry f;
            email := email' |}
         s.

(** [on_next] of [step_2], on the selection. *)
Definition step_2_on_next (selected : option string) (s : session) : session :=
  let f := form_data s in
  store_and_advance
    {| first_name := first_name f;
       startup_name := startup_name f;
       messaging_tested := selected;
       launch_type := launch_type f;
       funding_status := funding_status f;
       primary_goal := primary_goal f;
       audience_readiness := audience_readiness f;
       post_launch_priority := post_launch_priority f;
       industry := industry f;
       email := email f |}
    s.

(** [on_next] of [step_3], on the selection. *)
Definition step_3_on_next (selected : option string) (s : session) : session :=
  let f := form_data s in
  store_and_advance
    {| first_name := first_name f;
       startup_name := startup_name f;
       messaging_tested := messaging_tested f;
       launch_type := selected;
       funding_status := funding_status f;
       primary_goal := primary_goal f;
       audience_readiness := audience_readiness f;
       post_launch_priority := post_launch_priority f;
       industry := industry f;
       email := email f |}
    s.

(** [on_next] of [step_4], on the selection. *)
Definition step_4_on_next (selected : option string) (s : session) : session :=
  let f := form_data s in
  store_and_advance
    {| first_name := first_name f;
       startup_name := startup_name f;
       messaging_tested := messaging_tested f;
       launch_type := launch_type f;
       funding_status := selected;
       primary_goal := primary_goal f;
       audience_readiness := audience_readiness f;
       post_launch_priority := post_launch_priority f;
       industry := industry f;
       email := email f |}
    s.

(** [on_next] of [step_5], on the selection. *)
Definition step_5_on_next (selected : option string) (s : session) : session :=
  let f := form_data s in
  store_and_advance
    {| first_name := first_name f;
       startup_name := startup_name f;
       messaging_tested := messaging_tested f;
       launch_type := launch_type f;
       funding_status := funding_status f;
       primary_goal := selected;
       audience_readiness := audience_readiness f;
       post_launch_priority := post_launch_priority f;
       industry := industry f;
       email := email f |}
    s.

(** [on_next] of [step_6], on the selection. *)
Definition step_6_on_next (selected : option string) (s : session) : session :=
  let f := form_data s in
  store_and_advance
    {| first_name := first_name f;
       startup_name := startup_name f;
       messaging_tested := messaging_tested f;
       launch_type := launch_type f;
       funding_status := funding_status f;
       primary_goal := primary_goal f;
       audience_readiness := selected;
       post_launch_priority := post_launch_priority f;
       industry := industry f;
       email := email f |}
    s.

(** [on_next] of [step_7], on the selection. *)
Definition step_7_on_next (selected : option string) (s : session) : session :=
  let f := form_data s in
  store_and_advance
    {| first_name := first_name f;
       startup_name := startup_name f;
       messaging_tested := messaging_tested f;
       launch_type := launch_type f;
       funding_status := funding_status f;
       primary_goal := primary_goal f;
       audience_readiness := audience_readiness f;
       post_launch_priority := selected;
       industry := industry f;
       email := email f |}
    s.

(** [selected.split(" ", 1)]: the text cut at its first space, or the
    text alone when it has none. *)
Fixpoint split_space_1 (selected : string) : list string :=
  match selected with
  | EmptyString => [ "" ]
  | String c rest =>
      if Ascii.eqb c " "%char then [ ""; rest ]
      else match split_space_1 rest with
           | head :: tail => String c head :: tail
           | [] => [ String c "" ]
           end
  end.

(** [selected.split(" ", 1)[1] if " " in selected else selected]; [None]
    stands for the [IndexError] of an index out of range. *)
Definition industry_of (selected : string) : option string :=
  if contains " " selected then split_space_1 selected !! 1%nat else Some selected.

(** [bool(selected)] *)
Definition chosen (selected : option string) : bool :=
  match selected with
  | Some label => negb (blank label)
  | None => false
  end.

(** [on_next] of [step_8], on the selection; [None] stands for an
    [IndexError] leaving the handler. *)
Definition step_8_on_next (selected : option string) (s : session) : option session :=
  let f := form_data s in
  match selected with
  | Some label =>
      if chosen selected then
        industry' ← industry_of label;
        Some (store_and_advance
                {| first_name := first_name f;
                   startup_name := startup_name f;
                   messaging_tested := messaging_tested f;
                   launch_type := launch_type f;
                   funding_status := funding_status f;
                   primary_goal := primary_goal f;
                   audience_readiness := audience_readiness f;
                   post_launch_priority := post_launch_priority f;
                   industry := Some industry';
                   email := email f |}
                s)
      else
        Some (store_and_advance
                {| first_name := first_name f;
                   startup_name := startup_name f;
                   messaging_tested := messaging_tested f;
                   launch_type := launch_type f;
                   funding_status := funding_status f;
                   primary_goal := primary_goal f;
                   audience_readiness := audience_readiness f;
                   post_launch_priority := post_launch_priority f;
                   industry := None;
                   email := email f |}
                s)
  | None =>
      Some (store_and_advance
              {| first_name := first_name f;
                 startup_name := startup_name f;
                 messaging_tested := messaging_tested f;
                 launch_type := launch_type f;
                 funding_status := funding_status f;
                 primary_goal := primary_goal f;
                 audience_readiness := audience_readiness f;
                 post_launch_priority := post_launch_priority f;
                 industry := None;
                 email := email f |}
              s)
  end.

(** [f"{emoji} {industry}"] with [emoji = industry_emojis.get(industry, ...)],
    the label [step_8] offers for an industry. *)
Definition industry_option (industry : string) : string :=
  default "🔍" (industry_emojis !! industry) ++ " " ++ industry.

(** What [main] puts below the header. *)
Inductive screen : Type :=
| Calendar
| Results
| FormStep (k : Z)
| Blank.

Definition main_screen (s : session) : screen :=
  match generated_plan s with
  | Some _ => if show_calendar s then Calendar else Results
  | None =>
      if Z.eqb (step s) 1 then FormStep 1
      else if Z.eqb (step s) 2 then FormStep 2
      else if Z.eqb (step s) 3 then FormStep 3
      else if Z.eqb (step s) 4 then FormStep 4
      else if Z.eqb (step s) 5 then FormStep 5
      else if Z.eqb (step s) 6 then FormStep 6
      else if Z.eqb (step s) 7 then FormStep 7
      else if Z.eqb (step s) 8 then FormStep 8
      else if Z.eqb (step s) 9 then FormStep 9
      else Blank
  end.

End App.

(** ** Shapes of milestone lists *)

(** How many categories of a rule list have their marker in the label. *)
Definition count_matches (rules : list (string * list Milestone)) (label : string) : nat :=
  length (filter (fun rule => Is_true (contains rule.1 label)) rules).

(** The relative markers the milestones are dated with. *)
Definition timeframes : list string :=
  [ "4 weeks before launch"; "3 weeks before launch"; "2 weeks before launch";
    "Launch day"; "1 week after launch" ].

Definition well_formed_milestone (m : Milestone) : bool :=
  negb (String.eqb (name m) "") && negb (String.eqb (description m) "")
  && in_list (timeframe m) timeframes.

(** A form filled in with labels as [streamlit_app.py] offers them. *)
Definition labelled_form : Form.t :=
  {| Form.first_name := "Grace";
     Form.startup_name := "Compilers Inc";
     Form.email := "grace@compilers.example";
     Form.messaging_tested := "❌ No, I haven't tested it yet";
     Form.launch_type := "💰 Funding Announcement";
     Form.funding_status := "🌱 Raised under $1M (Likely still raising, early-stage)";
     Form.primary_goal := "💰 Attract Investors";
     Form.audience_readiness := "✅ Yes, we have an engaged community";
     Form.post_launch_priority := "🔥 Sustaining press & industry visibility";
     Form.industry := Some "Fintech" |}.

(** An override file that lists the strategies of a repositioning per
    launch type, without the funding status and goal levels. *)
Definition shallow_repositioning : pyval :=
  PDict {[ "launch_strategies" :=
    PDict {[ "Brand Repositioning (Rebrand or Pivot)" :=
      strs [ "Refresh the logo"; "Announce the new name" ] ]} ]}.

(** None of the three AI functions ever raises; what they return is
    left open. *)
Definition never_raises (ai : AI.generator) : Prop :=
  (forall messaging_tested,
     exists advice, AI.generate_ai_messaging_advice ai messaging_tested = Ok advice) /\
  (forall form_data fallback,
     exists v, AI.generate_ai_strategies ai form_data fallback = Ok v) /\
  (forall form_data fallback,
     exists v, AI.generate_ai_next_steps ai form_data fallback = Ok v).

(** A collaborator that never raises and never says anything: it drops
    every fallback and answers with empty content. *)
Definition mute : AI.generator :=
  {| AI.generate_ai_strategies := fun _ _ => Ok (PList []);
     AI.generate_ai_next_steps := fun _ _ => Ok (PList []);
     AI.generate_ai_messaging_advice := fun _ => Ok (PStr "") |}.
(** * Properties *)

(** Unfolds one [bind] of the error monad. *)
Ltac run := cbn [mbind result_bind bind].

(** Case analysis on every marker test made on [label]. *)
Ltac case_markers label :=
  repeat match goal with
         | |- context [contains ?marker label] => destruct (contains marker label)
         end.

(** ** Substring containment *)

Lemma append_cons c (s t : string) : String c s ++ t = String c (s ++ t).
Proof. reflexivity. Qed.

Lemma append_nil (t : string) : "" ++ t = t.
Proof. reflexivity. Qed.

Lemma prefix_app (needle rest : string) : String.prefix needle (needle ++ rest) = true.
Proof.
  induction needle as [|c needle IH].
  - rewrite append_nil. now destruct rest.
  - rewrite append_cons. cbn [String.prefix].
    destruct (Ascii.ascii_dec c c) as [_|Hne]; [exact IH | now destruct Hne].
Qed.

Lemma prefix_inv (needle hay : string) :
  String.prefix needle hay = true -> exists rest, hay = needle ++ rest.
Proof.
  revert hay. induction needle as [|c needle IH]; intros hay H.
  - exists hay. reflexivity.
  - destruct hay as [|c' hay]; cbn [String.prefix] in H; [discriminate|].
    destruct (Ascii.ascii_dec c c') as [->|]; [|discriminate].
    destruct (IH _ H) as [rest ->]. exists rest. reflexivity.
Qed.

(** [contains] is Python's [in] on strings: the needle occurs somewhere
    in the haystack. *)
Lemma contains_iff (needle hay : string) :
  contains needle hay = true <-> exists before after, hay = before ++ needle ++ after.
Proof.
  split.
  - induction hay as [|c hay IH]; cbn [contains].
    + destruct (String.prefix needle "") eqn:Hp; [|discriminate].
      intros _. destruct (prefix_inv _ _ Hp) as [rest Hrest]. now exists "", rest.
    + destruct (String.prefix needle (String c hay)) eqn:Hp.
      * intros _. destruct (prefix_inv _ _ Hp) as [rest Hrest]. now exists "", rest.
      * intros H. destruct (IH H) as (before & after & ->).
        now exists (String c before), after.
  - intros (before & after & ->). induction before as [|c before IH].
    + rewrite append_nil. destruct (needle ++ after) eqn:E; cbn [contains];
        rewrite <- E, prefix_app; reflexivity.
    + rewrite append_cons. cbn [contains]. rewrite IH.
      now destruct (String.prefix _ _).
Qed.

(** ** The external tier *)

Lemma bind_assoc {A B C : Type} (r : result A) (f : A -> result B) (g : B -> result C) :
  (y ← (x ← r; f x); g y) = (x ← r; y ← f x; g y).
Proof. destruct r; reflexivity. Qed.

Lemma strategies_by_tier lt fs pg ext :
  get_standard_strategies lt fs pg ext =
  (returned ← external_tier "launch_strategies" lt fs pg ext;
   match returned with
   | Some leaf => Ok leaf
   | None => try_except_KeyError (Tables.lookup3 Tables.strategies lt fs pg)
                                 (Ok (strs Tables.default_strategies))
   end).
Proof. unfold get_standard_strategies, external_tier. now rewrite bind_assoc. Qed.

Lemma next_steps_by_tier fs ar plp ext :
  get_standard_next_steps fs ar plp ext =
  (returned ← external_tier "next_steps" fs ar plp ext;
   match returned with
   | Some leaf => Ok leaf
   | None => try_except_KeyError (Tables.lookup3 Tables.next_steps fs ar plp)
                                 (Ok (strs Tables.default_next_steps))
   end).
Proof. unfold get_standard_next_steps, external_tier. now rewrite bind_assoc. Qed.

Lemma truthy_dict_with_key (d : gmap string pyval) k x :
  d !! k = Some x -> truthy (PDict d) = true.
Proof.
  intros Hk. simpl. destruct (Nat.eqb_spec (size d) 0) as [Hz|]; [|reflexivity].
  apply map_size_empty_iff in Hz. subst d. now rewrite lookup_empty in Hk.
Qed.

Lemma nested_mapping_lookup n (d : gmap string pyval) k x :
  nested_mapping (S n) (PDict d) = true -> d !! k = Some x -> nested_mapping n x = true.
Proof.
  simpl. intros Hall Hk. rewrite forallb_forall in Hall.
  apply (Hall (k, x)). apply list_elem_of_In. now apply elem_of_map_to_list.
Qed.

Lemma nested_mapping_is_dict n v :
  nested_mapping (S n) v = true -> exists d, v = PDict d.
Proof. destruct v; simpl; try discriminate. eauto. Qed.

Lemma chain_raise e keys : chain (Raise e) keys = Raise e.
Proof. induction keys as [|k rest IH]; [reflexivity | exact IH]. Qed.

Lemma chain_found keys : forall v leaf,
  walk v keys = Some leaf -> chain (Ok v) keys = Ok leaf.
Proof.
  induction keys as [|k rest IH]; intros v leaf Hw.
  - now injection Hw as ->.
  - cbn [walk] in Hw. destruct v as [| | | | |d]; try discriminate.
    cbn [as_dict] in Hw. destruct (d !! k) as [x|] eqn:Hk; [|discriminate].
    cbn [chain]. replace ((Ok (PDict d))⟦k⟧) with (Ok x).
    + now apply IH.
    + unfold subscript. cbn. now rewrite Hk.
Qed.

Lemma chain_missing keys : forall v,
  nested_mapping (length keys) v = true ->
  walk v keys = None -> chain (Ok v) keys = Raise KeyError.
Proof.
  induction keys as [|k rest IH]; intros v Hshape Hw.
  - discriminate.
  - cbn [length] in Hshape.
    destruct (nested_mapping_is_dict _ _ Hshape) as [d ->].
    cbn [walk as_dict] in Hw. cbn [chain].
    destruct (d !! k) as [x|] eqn:Hk.
    + replace ((Ok (PDict d))⟦k⟧) with (Ok x).
      * apply IH; [|exact Hw]. exact (nested_mapping_lookup _ _ _ _ Hshape Hk).
      * unfold subscript. cbn. now rewrite Hk.
    + replace ((Ok (PDict d))⟦k⟧) with (@Raise pyval KeyError).
      * apply chain_raise.
      * unfold subscript. cbn. now rewrite Hk.
Qed.

Lemma py_in_dict_key (d : gmap string pyval) k x :
  d !! k = Some x -> py_in k (PDict d) = Ok true.
Proof.
  intros Hk. cbn. f_equal. apply bool_decide_eq_true. rewrite Hk. eauto.
Qed.

Lemma py_in_dict_no_key (d : gmap string pyval) k :
  d !! k = None -> py_in k (PDict d) = Ok false.
Proof.
  intros Hk. cbn. f_equal. apply bool_decide_eq_false. rewrite Hk.
  intros [x Hx]. discriminate.
Qed.

Lemma external_tier_chain section k1 k2 k3 ext :
  external_tier section k1 k2 k3 ext =
  (cond ← (if truthy ext then py_in section ext else Ok false);
   if cond : bool
   then try_except_KeyError
          (leaf ← chain (Ok ext) [section; k1; k2; k3]; Ok (Some leaf)) (Ok None)
   else Ok None).
Proof. reflexivity. Qed.

(** A path that is present is returned by the external tier. *)
Lemma external_tier_found section k1 k2 k3 ext leaf :
  external_leaf section k1 k2 k3 ext = Some leaf ->
  external_tier section k1 k2 k3 ext = Ok (Some leaf).
Proof.
  intros Hleaf. rewrite external_tier_chain.
  rewrite (chain_found _ _ _ Hleaf).
  unfold external_leaf in Hleaf. cbn [walk] in Hleaf.
  destruct ext as [| | | | |d]; try discriminate. cbn [as_dict] in Hleaf.
  destruct (d !! section) as [x|] eqn:Hs; [|discriminate].
  rewrite (truthy_dict_with_key _ _ _ Hs), (py_in_dict_key _ _ _ Hs).
  reflexivity.
Qed.

(** On a well-shaped mapping a path that is absent, at whatever level
    the first key is missing, makes the external tier fall through. *)
Lemma external_tier_absent section k1 k2 k3 ext :
  well_shaped_at section ext = true ->
  external_leaf section k1 k2 k3 ext = None ->
  external_tier section k1 k2 k3 ext = Ok None.
Proof.
  intros Hshape Hleaf. rewrite external_tier_chain.
  destruct ext as [| | | | |d]; try discriminate; [reflexivity|].
  destruct (truthy (PDict d)); [|reflexivity].
  cbn [well_shaped_at] in Hshape.
  destruct (d !! section) as [x|] eqn:Hs.
  - rewrite (py_in_dict_key _ _ _ Hs).
    assert (Hc : chain (Ok (PDict d)) [section; k1; k2; k3] = Raise KeyError).
    { cbn [chain]. replace ((Ok (PDict d))⟦section⟧) with (Ok x).
      - apply (chain_missing [k1; k2; k3]); [exact Hshape|].
        unfold external_leaf in Hleaf. cbn [walk as_dict] in Hleaf.
        rewrite Hs in Hleaf. exact Hleaf.
      - unfold subscript. cbn. now rewrite Hs. }
    rewrite Hc. reflexivity.
  - rewrite (py_in_dict_no_key _ _ Hs). reflexivity.
Qed.

(** ** The static tier *)

Lemma lookup3_static_leaf table k1 k2 k3 :
  Tables.lookup3 table k1 k2 k3 =
  match static_leaf table k1 k2 k3 with
  | Some leaf => Ok (strs leaf)
  | None => Raise KeyError
  end.
Proof.
  unfold Tables.lookup3, static_leaf, Tables.getkey.
  destruct (table !! k1) as [m2|]; [|reflexivity]. cbn.
  destruct (m2 !! k2) as [m3|]; [|reflexivity]. cbn.
  destruct (m3 !! k3); reflexivity.
Qed.

Lemma static_tier table default k1 k2 k3 :
  try_except_KeyError (Tables.lookup3 table k1 k2 k3) (Ok (strs default)) =
  Ok (static_or_default table default k1 k2 k3).
Proof.
  rewrite lookup3_static_leaf. unfold static_or_default.
  destruct (static_leaf table k1 k2 k3); reflexivity.
Qed.

Lemma strategies_without_external lt fs pg :
  get_standard_strategies lt fs pg PNone =
  Ok (static_or_default Tables.strategies Tables.default_strategies lt fs pg).
Proof. rewrite strategies_by_tier. cbn. apply static_tier. Qed.

Lemma next_steps_without_external fs ar plp :
  get_standard_next_steps fs ar plp PNone =
  Ok (static_or_default Tables.next_steps Tables.default_next_steps fs ar plp).
Proof. rewrite next_steps_by_tier. cbn. apply static_tier. Qed.

Lemma strategies_fall_through lt fs pg ext :
  well_shaped_at "launch_strategies" ext = true ->
  external_leaf "launch_strategies" lt fs pg ext = None ->
  get_standard_strategies lt fs pg ext = get_standard_strategies lt fs pg PNone.
Proof.
  intros Hshape Hleaf. rewrite strategies_without_external, strategies_by_tier.
  rewrite (external_tier_absent _ _ _ _ _ Hshape Hleaf). cbn. apply static_tier.
Qed.

Lemma next_steps_fall_through fs ar plp ext :
  well_shaped_at "next_steps" ext = true ->
  external_leaf "next_steps" fs ar plp ext = None ->
  get_standard_next_steps fs ar plp ext = get_standard_next_steps fs ar plp PNone.
Proof.
  intros Hshape Hleaf. rewrite next_steps_without_external, next_steps_by_tier.
  rewrite (external_tier_absent _ _ _ _ _ Hshape Hleaf). cbn. apply static_tier.
Qed.

Lemma strategies_found lt fs pg ext leaf :
  external_leaf "launch_strategies" lt fs pg ext = Some leaf ->
  get_standard_strategies lt fs pg ext = Ok leaf.
Proof.
  intros Hleaf. rewrite strategies_by_tier.
  now rewrite (external_tier_found _ _ _ _ _ _ Hleaf).
Qed.

Lemma next_steps_found fs ar plp ext leaf :
  external_leaf "next_steps" fs ar plp ext = Some leaf ->
  get_standard_next_steps fs ar plp ext = Ok leaf.
Proof.
  intros Hleaf. rewrite next_steps_by_tier.
  now rewrite (external_tier_found _ _ _ _ _ _ Hleaf).
Qed.

Lemma well_shaped_sections ext :
  well_shaped ext = true ->
  well_shaped_at "launch_strategies" ext = true /\ well_shaped_at "next_steps" ext = true.
Proof. unfold well_shaped. intros H. now apply andb_true_iff in H. Qed.

Lemma forallb_map_to_list {V : Type} (ok : string * V -> bool) (m : gmap string V) k x :
  forallb ok (map_to_list m) = true -> m !! k = Some x -> ok (k, x) = true.
Proof.
  intros Hall Hk. rewrite forallb_forall in Hall. apply Hall.
  apply list_elem_of_In. now apply elem_of_map_to_list.
Qed.

Lemma all_leaves_static_leaf ok table k1 k2 k3 leaf :
  all_leaves ok table = true -> static_leaf table k1 k2 k3 = Some leaf -> ok leaf = true.
Proof.
  unfold all_leaves, static_leaf. intros Hall Hleaf.
  destruct (table !! k1) as [m2|] eqn:H1; [|discriminate].
  destruct (m2 !! k2) as [m3|] eqn:H2; [|discriminate].
  pose proof (forallb_map_to_list _ _ _ _ Hall H1) as Hall2. cbn [snd] in Hall2.
  pose proof (forallb_map_to_list _ _ _ _ Hall2 H2) as Hall3. cbn [snd] in Hall3.
  exact (forallb_map_to_list _ _ _ _ Hall3 Hleaf).
Qed.

Lemma strategies_table_leaves : all_leaves three_items Tables.strategies = true.
Proof. vm_compute. reflexivity. Qed.

Lemma next_steps_table_leaves : all_leaves three_items Tables.next_steps = true.
Proof. vm_compute. reflexivity. Qed.

Lemma three_items_nonempty l : three_items l = true -> nonempty_list (strs l) = true.
Proof. destruct l; [discriminate | reflexivity]. Qed.

Lemma static_or_default_nonempty table default k1 k2 k3 :
  all_leaves three_items table = true ->
  three_items default = true ->
  nonempty_list (static_or_default table default k1 k2 k3) = true.
Proof.
  intros Hall Hdef. unfold static_or_default.
  destruct (static_leaf table k1 k2 k3) as [leaf|] eqn:Hleaf.
  - apply three_items_nonempty. exact (all_leaves_static_leaf _ _ _ _ _ _ Hall Hleaf).
  - now apply three_items_nonempty.
Qed.

Lemma repositioning_3M_not_in_table pg :
  static_leaf Tables.strategies "Brand Repositioning (Rebrand or Pivot)" "Raised $3M+" pg = None.
Proof. vm_compute. reflexivity. Qed.


(** ** The resolver *)

(** C1. A three-level key path that is present under 'launch_strategies'
    in the external mapping resolves to exactly the external leaf,
    whatever the hardcoded table holds for the same path. *)
Theorem external_override_wins lt fs pg ext leaf :
  external_leaf "launch_strategies" lt fs pg ext = Some leaf ->
  get_standard_strategies lt fs pg ext = Ok leaf.
Proof.
  intros Hleaf. rewrite strategies_by_tier.
  rewrite (external_tier_found _ _ _ _ _ _ Hleaf). reflexivity.
Qed.

(** The override is returned although the hardcoded table has its own
    entry for the same path. *)
Lemma external_override_wins_witness :
  is_Some (static_leaf Tables.strategies "New Startup/Product Launch"
             "Bootstrapping (No external funding)" "Get Users or Customers") /\
  get_standard_strategies "New Startup/Product Launch"
    "Bootstrapping (No external funding)" "Get Users or Customers" Samples.override
  = Ok (strs [ "Post a weekly build log"; "Offer lifetime deals" ]).
Proof.
  split.
  - vm_compute. eauto.
  - apply external_override_wins. vm_compute. reflexivity.
Defined.

(** C2. The resolvers are meant never to raise, a key missing at any
    level falling through to the next tier.  On an external mapping that
    stops one level short the looked-up path is missing, yet both
    resolvers raise [TypeError]: the subscript chain meets a list (a
    string for the next steps), and [except KeyError] does not catch
    it. *)
Lemma shallow_external_raises :
  get_standard_strategies "New Startup/Product Launch"
    "Bootstrapping (No external funding)" "Get Users or Customers" Samples.shallow
  = Raise TypeError /\
  get_standard_next_steps "Bootstrapping (No external funding)"
    "Yes, we have an engaged community" "Scaling & repeatable traction" Samples.shallow
  = Raise TypeError.
Proof. split; vm_compute; reflexivity. Qed.

(** X20. On no external data, or on an external mapping whose
    'launch_strategies' and 'next_steps' entries, where present, are
    three-level nested mappings, neither resolver raises, and a key
    missing at any level of the external path, the outermost included,
    gives what the static tier gives: the hardcoded leaf, or the default
    when a key is missing at any level there. *)
Theorem resolvers_never_raise_on_well_shaped k1 k2 k3 ext :
  well_shaped ext = true ->
  (exists v, get_standard_strategies k1 k2 k3 ext = Ok v) /\
  (exists v, get_standard_next_steps k1 k2 k3 ext = Ok v) /\
  (external_leaf "launch_strategies" k1 k2 k3 ext = None ->
   get_standard_strategies k1 k2 k3 ext =
   Ok (static_or_default Tables.strategies Tables.default_strategies k1 k2 k3)) /\
  (external_leaf "next_steps" k1 k2 k3 ext = None ->
   get_standard_next_steps k1 k2 k3 ext =
   Ok (static_or_default Tables.next_steps Tables.default_next_steps k1 k2 k3)).
Proof.
  intros Hshape. destruct (well_shaped_sections _ Hshape) as [Hs Hn].
  assert (Hfs : external_leaf "launch_strategies" k1 k2 k3 ext = None ->
                get_standard_strategies k1 k2 k3 ext =
                Ok (static_or_default Tables.strategies Tables.default_strategies k1 k2 k3)).
  { intros Hleaf. rewrite (strategies_fall_through _ _ _ _ Hs Hleaf).
    apply strategies_without_external. }
  assert (Hfn : external_leaf "next_steps" k1 k2 k3 ext = None ->
                get_standard_next_steps k1 k2 k3 ext =
                Ok (static_or_default Tables.next_steps Tables.default_next_steps k1 k2 k3)).
  { intros Hleaf. rewrite (next_steps_fall_through _ _ _ _ Hn Hleaf).
    apply next_steps_without_external. }
  repeat split; try assumption.
  - destruct (external_leaf "launch_strategies" k1 k2 k3 ext) as [leaf|] eqn:Hleaf.
    + exists leaf. now apply strategies_found.
    + eexists. now apply Hfs.
  - destruct (external_leaf "next_steps" k1 k2 k3 ext) as [leaf|] eqn:Hleaf.
    + exists leaf. now apply next_steps_found.
    + eexists. now apply Hfn.
Qed.

Lemma resolvers_never_raise_on_well_shaped_witness :
  get_standard_strategies "Funding Announcement" "Raised $3M+" "Attract Investors"
    Samples.override
  = Ok (static_or_default Tables.strategies Tables.default_strategies
          "Funding Announcement" "Raised $3M+" "Attract Investors").
Proof.
  apply (resolvers_never_raise_on_well_shaped "Funding Announcement" "Raised $3M+"
           "Attract Investors" Samples.override).
  - vm_compute. reflexivity.
  - vm_compute. reflexivity.
Defined.

(** On a well-shaped external mapping, a combination whose three-level
    path is absent from the external mapping and from the hardcoded table
    resolves to the fixed 3-item generic default; "Brand Repositioning
    (Rebrand or Pivot)" with "Raised $3M+" is such a combination for
    every primary goal. *)
Lemma generic_default_when_absent lt fs pg ext :
  well_shaped_at "launch_strategies" ext = true ->
  external_leaf "launch_strategies" lt fs pg ext = None ->
  static_leaf Tables.strategies lt fs pg = None \/
    (lt = "Brand Repositioning (Rebrand or Pivot)" /\ fs = "Raised $3M+") ->
  get_standard_strategies lt fs pg ext = Ok (strs Tables.default_strategies) /\
  length Tables.default_strategies = 3.
Proof.
  intros Hshape Hleaf Hstatic. split; [|reflexivity].
  assert (Hnone : static_leaf Tables.strategies lt fs pg = None).
  { destruct Hstatic as [H|[-> ->]]; [exact H | apply repositioning_3M_not_in_table]. }
  rewrite (strategies_fall_through _ _ _ _ Hshape Hleaf), strategies_without_external.
  unfold static_or_default. now rewrite Hnone.
Qed.

Lemma generic_default_when_absent_witness :
  get_standard_strategies "Brand Repositioning (Rebrand or Pivot)" "Raised $3M+"
    "Build Press & Awareness" Samples.override
  = Ok (strs [ "Create a compelling story that connects your mission to customer needs";
               "Focus on 1-2 high-impact marketing channels that align with your resources";
               "Build relationships with influencers and partners in your industry" ]).
Proof.
  apply (generic_default_when_absent "Brand Repositioning (Rebrand or Pivot)" "Raised $3M+"
           "Build Press & Awareness" Samples.override).
  - vm_compute. reflexivity.
  - vm_compute. reflexivity.
  - right. split; reflexivity.
Defined.

(** C3. A combination whose three-level path is absent from both the
    external mapping and the hardcoded table is meant to resolve to the
    generic default.  With "Brand Repositioning (Rebrand or Pivot)" and
    "Raised $3M+", absent from the table, and an external mapping that
    lists its strategies per launch type only, the path is absent from
    both, yet [get_standard_strategies] raises [TypeError] instead of
    returning the default. *)
Theorem absent_path_raises_on_shallow_external :
  external_leaf "launch_strategies" "Brand Repositioning (Rebrand or Pivot)" "Raised $3M+"
    "Get Users or Customers" shallow_repositioning = None /\
  static_leaf Tables.strategies "Brand Repositioning (Rebrand or Pivot)" "Raised $3M+"
    "Get Users or Customers" = None /\
  get_standard_strategies "Brand Repositioning (Rebrand or Pivot)" "Raised $3M+"
    "Get Users or Customers" shallow_repositioning
  = Raise TypeError /\
  get_standard_strategies "Brand Repositioning (Rebrand or Pivot)" "Raised $3M+"
    "Get Users or Customers" PNone
  = Ok (strs Tables.default_strategies).
Proof. repeat split; vm_compute; reflexivity. Qed.

(** C8. With no external override, a bootstrapped new-product launch
    that wants users or customers gets the three founder-led-storytelling
    strategies of the hardcoded table, in the table's order. *)
Theorem bootstrapped_product_launch_strategies :
  get_standard_strategies "New Startup/Product Launch"
    "Bootstrapping (No external funding)" "Get Users or Customers" PNone
  = Ok (strs
      [ "Focus on founder-led storytelling through guest podcasts and social content";
        "Create a limited beta program with exclusive perks to drive early adoption";
        "Build direct relationships with early users for feedback and testimonials" ]).
Proof.
  rewrite strategies_without_external. unfold static_or_default.
  vm_compute. reflexivity.
Qed.

(** ** The milestone rules *)

Lemma type_specific_first_match launch_type :
  type_specific_milestones launch_type = first_match launch_type_rules launch_type.
Proof.
  unfold type_specific_milestones, first_match, launch_type_rules. cbn [find fst snd].
  case_markers launch_type; reflexivity.
Qed.

Lemma funding_specific_first_match funding_status :
  funding_specific_milestones funding_status = first_match funding_status_rules funding_status.
Proof.
  unfold funding_specific_milestones, first_match, funding_status_rules. cbn [find fst snd].
  case_markers funding_status; reflexivity.
Qed.

Lemma first_match_none (rules : list (string * list Milestone)) (label : string) :
  no_match rules label = true -> first_match rules label = [].
Proof.
  unfold no_match, first_match. induction rules as [|rule rest IH]; [reflexivity|].
  cbn [forallb find]. intros H. apply andb_true_iff in H as [Hr Hrest].
  apply negb_true_iff in Hr. rewrite Hr. now apply IH.
Qed.



Lemma type_specific_empty_iff launch_type :
  no_match launch_type_rules launch_type = true <-> type_specific_milestones launch_type = [].
Proof.
  split; [intros H; rewrite type_specific_first_match; now apply first_match_none|].
  unfold type_specific_milestones, no_match, launch_type_rules. cbn [forallb fst].
  case_markers launch_type; solve [discriminate | reflexivity].
Qed.

Lemma funding_specific_empty_iff funding_status :
  no_match funding_status_rules funding_status = true <->
  funding_specific_milestones funding_status = [].
Proof.
  split; [intros H; rewrite funding_specific_first_match; now apply first_match_none|].
  unfold funding_specific_milestones, no_match, funding_status_rules. cbn [forallb fst].
  case_markers funding_status; solve [discriminate | reflexivity].
Qed.

(** C6. Whatever the launch type and funding status, there are at least
    four milestones and the first four are, in this order, Messaging
    Validation, Content Creation Deadline, Launch Day and Post-Launch
    Analysis. *)
Theorem base_milestones_come_first (launch_type funding_status : string) :
  4 <= length (generate_milestone_suggestions launch_type funding_status) /\
  map name (firstn 4 (generate_milestone_suggestions launch_type funding_status)) =
  [ "Messaging Validation"; "Content Creation Deadline"; "Launch Day"; "Post-Launch Analysis" ].
Proof.
  unfold generate_milestone_suggestions. split.
  - rewrite length_app. cbn [basic_milestones length]. lia.
  - reflexivity.
Qed.

(** C7. The milestones are the base sequence, then the launch-type
    milestones selected by substring match, then the funding-status
    milestones selected by substring match, concatenated as they are:
    nothing is merged or moved, and a dimension whose label carries none
    of its markers contributes nothing. *)
Theorem milestones_are_plain_concatenation (launch_type funding_status : string) :
  generate_milestone_suggestions launch_type funding_status =
    (basic_milestones ++ first_match launch_type_rules launch_type
                      ++ first_match funding_status_rules funding_status)%list /\
  length (generate_milestone_suggestions launch_type funding_status) =
    4 + length (first_match launch_type_rules launch_type)
      + length (first_match funding_status_rules funding_status) /\
  (no_match launch_type_rules launch_type = true <->
   type_specific_milestones launch_type = []) /\
  (no_match funding_status_rules funding_status = true <->
   funding_specific_milestones funding_status = []) /\
  (no_match launch_type_rules launch_type && no_match funding_status_rules funding_status = true ->
   generate_milestone_suggestions launch_type funding_status = basic_milestones).
Proof.
  assert (Heq : generate_milestone_suggestions launch_type funding_status =
    (basic_milestones ++ first_match launch_type_rules launch_type
                      ++ first_match funding_status_rules funding_status)%list).
  { unfold generate_milestone_suggestions.
    now rewrite type_specific_first_match, funding_specific_first_match. }
  split; [exact Heq|]. split; [|split; [|split]].
  - rewrite Heq, !length_app. cbn [basic_milestones length]. lia.
  - apply type_specific_empty_iff.
  - apply funding_specific_empty_iff.
  - intros H. apply andb_true_iff in H as [Ht Hf]. rewrite Heq.
    now rewrite (first_match_none _ _ Ht), (first_match_none _ _ Hf).
Qed.



(** ** The AI enhancement and the plan *)

Lemma enhance_failed expected o fallback :
  AI.failed expected o = true -> AI.enhance expected o fallback = fallback.
Proof.
  destruct o as [| |content]; cbn; try reflexivity.
  intros H. apply negb_true_iff in H. now rewrite H.
Qed.

Lemma enhance_cases expected o fallback :
  AI.enhance expected o fallback = fallback \/
  expected (AI.enhance expected o fallback) = true.
Proof.
  destruct o as [| |content]; cbn; auto.
  destruct (expected content) eqn:H; auto.
Qed.

Lemma nonempty_str_list_nonempty v :
  AI.nonempty_str_list v = true -> nonempty_list v = true.
Proof. destruct v as [| | | |[|x l]|]; try discriminate. reflexivity. Qed.

(** The enhancer of the specification keeps the contract the assembler
    relies on, whatever the generation service does. *)
Lemma enhancer_dependable canned svc : dependable (AI.enhancer canned svc).
Proof.
  split; [|split].
  - intros mt. eexists. reflexivity.
  - intros form fallback. eexists. split; [reflexivity|].
    destruct (enhance_cases AI.nonempty_str_list (AI.strategies_for svc form) fallback)
      as [H|H]; [now left | right; now apply nonempty_str_list_nonempty].
  - intros form fallback. eexists. split; [reflexivity|].
    destruct (enhance_cases AI.nonempty_str_list (AI.next_steps_for svc form) fallback)
      as [H|H]; [now left | right; now apply nonempty_str_list_nonempty].
Qed.

Lemma plan_on_fallback canned ai form ext :
  falls_back canned ai form ->
  generate_launch_plan ai form ext =
  (s ← get_standard_strategies (Form.launch_type form) (Form.funding_status form)
                               (Form.primary_goal form) ext;
   n ← get_standard_next_steps (Form.funding_status form) (Form.audience_readiness form)
                               (Form.post_launch_priority form) ext;
   Ok (standard_plan canned form s n)).
Proof.
  intros (Ha & Hs & Hn). unfold generate_launch_plan, standard_plan.
  rewrite Ha. cbn.
  destruct (get_standard_strategies _ _ _ ext) as [s|e]; [|reflexivity]. cbn.
  rewrite Hs. cbn.
  destruct (get_standard_next_steps _ _ _ ext) as [n|e]; [|reflexivity]. cbn.
  rewrite Hn. reflexivity.
Qed.

(** C4. When the generation service raises, times out, or returns
    something empty or malformed, the enhancement step hands back its
    fallback unchanged and the caller of [generate_launch_plan] gets a
    plan all the same: its recommended strategies are the result of
    [get_standard_strategies] and its next steps the result of
    [get_standard_next_steps]. *)
Theorem ai_failure_yields_standard_plan canned svc form ext s n :
  AI.failed AI.nonempty_str_list (AI.strategies_for svc form) = true ->
  AI.failed AI.nonempty_str_list (AI.next_steps_for svc form) = true ->
  get_standard_strategies (Form.launch_type form) (Form.funding_status form)
                          (Form.primary_goal form) ext = Ok s ->
  get_standard_next_steps (Form.funding_status form) (Form.audience_readiness form)
                          (Form.post_launch_priority form) ext = Ok n ->
  (forall fallback,
     AI.generate_ai_strategies (AI.enhancer canned svc) form fallback = Ok fallback) /\
  (forall fallback,
     AI.generate_ai_next_steps (AI.enhancer canned svc) form fallback = Ok fallback) /\
  exists plan, generate_launch_plan (AI.enhancer canned svc) form ext = Ok plan /\
               recommended_strategies plan = s /\ next_steps plan = n.
Proof.
  intros Hs Hn Hstd Hnext.
  assert (Hes : forall fallback,
            AI.generate_ai_strategies (AI.enhancer canned svc) form fallback = Ok fallback).
  { intros fallback. cbn. now rewrite enhance_failed. }
  assert (Hen : forall fallback,
            AI.generate_ai_next_steps (AI.enhancer canned svc) form fallback = Ok fallback).
  { intros fallback. cbn. now rewrite enhance_failed. }
  split; [exact Hes|]. split; [exact Hen|].
  unfold generate_launch_plan.
  change (AI.generate_ai_messaging_advice (AI.enhancer canned svc) (Form.messaging_tested form))
    with (Ok (AI.enhance AI.nonempty_str (AI.advice_for svc (Form.messaging_tested form))
                         (PStr (canned (Form.messaging_tested form))))).
  run. rewrite Hstd. run.
  rewrite Hes. run. rewrite Hnext. run.
  rewrite Hen. run.
  eexists. split; [reflexivity|]. split; reflexivity.
Qed.

Lemma ai_failure_yields_standard_plan_witness :
  exists plan,
    generate_launch_plan (AI.enhancer Samples.canned Samples.garbled) Samples.founder
      Samples.override = Ok plan /\
    recommended_strategies plan = strs [ "Post a weekly build log"; "Offer lifetime deals" ] /\
    next_steps plan =
      strs [ "1. Analyze which launch channels delivered highest ROI";
             "2. Document repeatable processes for your best-performing channels";
             "3. Create a lean content calendar focused on high-conversion topics" ].
Proof.
  apply (ai_failure_yields_standard_plan Samples.canned Samples.garbled Samples.founder
           Samples.override); vm_compute; reflexivity.
Defined.

(** C5, as stated, fails: an external leaf is passed on as it is, so an
    override whose list is empty gives a plan without strategies. *)
Lemma hollow_override_gives_no_strategies :
  exists plan,
    generate_launch_plan Samples.offline Samples.announcer Samples.hollow = Ok plan /\
    recommended_strategies plan = PList [].
Proof. eexists. split; [vm_compute; reflexivity | reflexivity]. Qed.

(** C5, amended. For every form, every collaborator that never raises
    and hands back its fallback or a non-empty list, and every
    well-shaped external mapping whose leaves on the two looked-up paths,
    where there are any, are non-empty lists, [generate_launch_plan]
    returns a plan whose recommended strategies and next steps are
    non-empty lists: the hardcoded leaves and the two defaults are never
    empty. *)
Theorem plan_lists_are_nonempty ai form ext :
  dependable ai ->
  well_shaped ext = true ->
  (forall leaf, external_leaf "launch_strategies" (Form.launch_type form)
                  (Form.funding_status form) (Form.primary_goal form) ext = Some leaf ->
                nonempty_list leaf = true) ->
  (forall leaf, external_leaf "next_steps" (Form.funding_status form)
                  (Form.audience_readiness form) (Form.post_launch_priority form) ext
                = Some leaf ->
                nonempty_list leaf = true) ->
  exists plan, generate_launch_plan ai form ext = Ok plan /\
               nonempty_list (recommended_strategies plan) = true /\
               nonempty_list (next_steps plan) = true.
Proof.
  intros (Hadv & Hais & Hain) Hshape Hs Hn.
  destruct (well_shaped_sections _ Hshape) as [Hss Hsn].
  assert (Hstd : exists s, get_standard_strategies (Form.launch_type form)
                   (Form.funding_status form) (Form.primary_goal form) ext = Ok s /\
                 nonempty_list s = true).
  { destruct (external_leaf "launch_strategies" (Form.launch_type form)
                (Form.funding_status form) (Form.primary_goal form) ext) as [leaf|] eqn:Hleaf.
    - exists leaf. split; [now apply strategies_found | now apply Hs].
    - eexists. split.
      + rewrite (strategies_fall_through _ _ _ _ Hss Hleaf). apply strategies_without_external.
      + apply static_or_default_nonempty; [apply strategies_table_leaves | reflexivity]. }
  assert (Hnext : exists n, get_standard_next_steps (Form.funding_status form)
                    (Form.audience_readiness form) (Form.post_launch_priority form) ext = Ok n /\
                  nonempty_list n = true).
  { destruct (external_leaf "next_steps" (Form.funding_status form)
                (Form.audience_readiness form) (Form.post_launch_priority form) ext)
      as [leaf|] eqn:Hleaf.
    - exists leaf. split; [now apply next_steps_found | now apply Hn].
    - eexists. split.
      + rewrite (next_steps_fall_through _ _ _ _ Hsn Hleaf). apply next_steps_without_external.
      + apply static_or_default_nonempty; [apply next_steps_table_leaves | reflexivity]. }
  destruct Hstd as (s & Hstd & Hsne). destruct Hnext as (n & Hnext & Hnne).
  destruct (Hadv (Form.messaging_tested form)) as (advice & Hadvice).
  destruct (Hais form s) as (rs & Hrs & Hrsne).
  destruct (Hain form n) as (ns & Hns & Hnsne).
  unfold generate_launch_plan.
  rewrite Hadvice. run. rewrite Hstd. run.
  rewrite Hrs. run. rewrite Hnext. run.
  rewrite Hns. run.
  eexists. split; [reflexivity|]. cbn [recommended_strategies next_steps]. split.
  - destruct Hrsne as [->|H]; assumption.
  - destruct Hnsne as [->|H]; assumption.
Qed.

Lemma plan_lists_are_nonempty_witness :
  exists plan,
    generate_launch_plan (AI.enhancer Samples.canned Samples.garbled) Samples.founder
      Samples.override = Ok plan /\
    nonempty_list (recommended_strategies plan) = true /\
    nonempty_list (next_steps plan) = true.
Proof.
  apply plan_lists_are_nonempty.
  - apply enhancer_dependable.
  - vm_compute. reflexivity.
  - intros leaf. vm_compute. intros [= <-]. reflexivity.
  - intros leaf. vm_compute. discriminate.
Defined.

(** C9. On the fallback path the plan depends on the form and the
    external data only: two calls that agree on both, each with every
    enhancement resolving to its fallback, end in the same outcome, and a
    plan that is returned is the same record, field by field. *)
Theorem fallback_path_is_deterministic canned ai1 ai2 form ext :
  falls_back canned ai1 form ->
  falls_back canned ai2 form ->
  generate_launch_plan ai1 form ext = generate_launch_plan ai2 form ext.
Proof.
  intros H1 H2.
  rewrite (plan_on_fallback _ _ _ _ H1), (plan_on_fallback _ _ _ _ H2). reflexivity.
Qed.

Lemma fallback_path_is_deterministic_witness :
  generate_launch_plan (AI.enhancer Samples.canned Samples.unreachable) Samples.founder
    Samples.override =
  generate_launch_plan (AI.enhancer Samples.canned Samples.garbled) Samples.founder
    Samples.override.
Proof.
  apply (fallback_path_is_deterministic Samples.canned).
  - split; [reflexivity | split; intros fallback; reflexivity].
  - split; [reflexivity | split; intros fallback; reflexivity].
Defined.

(** * Further properties of the resolvers *)

Lemma external_tier_raises_TypeError section k1 k2 k3 ext e :
  external_tier section k1 k2 k3 ext = Raise e -> e = TypeError.
Proof.
  rewrite external_tier_chain.
  destruct (truthy ext); [|discriminate].
  destruct (py_in section ext) as [[|]|e'] eqn:Hin; run.
  - destruct (chain _ _) as [leaf|[|]]; cbn; run; try discriminate. now intros [= <-].
  - discriminate.
  - intros [= <-]. destruct ext; cbn in Hin; congruence.
Qed.

Lemma external_raise_is_TypeError_strategies k1 k2 k3 ext e :
  get_standard_strategies k1 k2 k3 ext = Raise e -> e = TypeError.
Proof.
  rewrite strategies_by_tier. intros H.
  destruct (external_tier "launch_strategies" k1 k2 k3 ext) as [[leaf|]|e'] eqn:Ht;
    revert H; run.
  - discriminate.
  - rewrite static_tier. discriminate.
  - intros [= ->]. exact (external_tier_raises_TypeError _ _ _ _ _ _ Ht).
Qed.

Lemma external_raise_is_TypeError_next_steps k1 k2 k3 ext e :
  get_standard_next_steps k1 k2 k3 ext = Raise e -> e = TypeError.
Proof.
  rewrite next_steps_by_tier. intros H.
  destruct (external_tier "next_steps" k1 k2 k3 ext) as [[leaf|]|e'] eqn:Ht;
    revert H; run.
  - discriminate.
  - rewrite static_tier. discriminate.
  - intros [= ->]. exact (external_tier_raises_TypeError _ _ _ _ _ _ Ht).
Qed.

(** X1. Whatever the external data, a resolver that fails fails with
    [TypeError]: a [KeyError] never leaves [get_standard_strategies] or
    [get_standard_next_steps]. *)
Theorem resolvers_raise_only_TypeError k1 k2 k3 ext e :
  get_standard_strategies k1 k2 k3 ext = Raise e \/
  get_standard_next_steps k1 k2 k3 ext = Raise e ->
  e = TypeError.
Proof.
  intros [H|H].
  - exact (external_raise_is_TypeError_strategies _ _ _ _ _ H).
  - exact (external_raise_is_TypeError_next_steps _ _ _ _ _ H).
Qed.

Lemma resolvers_raise_only_TypeError_witness : TypeError = TypeError.
Proof.
  apply (resolvers_raise_only_TypeError "New Startup/Product Launch"
           "Bootstrapping (No external funding)" "Get Users or Customers" Samples.shallow).
  left. vm_compute. reflexivity.
Defined.

Lemma external_tier_falsy section k1 k2 k3 ext :
  truthy ext = false -> external_tier section k1 k2 k3 ext = Ok None.
Proof. intros H. rewrite external_tier_chain, H. reflexivity. Qed.

Lemma strategies_skip_tier lt fs pg ext :
  external_tier "launch_strategies" lt fs pg ext = Ok None ->
  get_standard_strategies lt fs pg ext = get_standard_strategies lt fs pg PNone.
Proof.
  intros H. rewrite strategies_without_external, strategies_by_tier, H. run.
  apply static_tier.
Qed.

Lemma next_steps_skip_tier fs ar plp ext :
  external_tier "next_steps" fs ar plp ext = Ok None ->
  get_standard_next_steps fs ar plp ext = get_standard_next_steps fs ar plp PNone.
Proof.
  intros H. rewrite next_steps_without_external, next_steps_by_tier, H. run.
  apply static_tier.
Qed.

(** X2. External data that Python takes for false (None, False, 0, an
    empty string, list or dictionary) is never searched or subscripted:
    both resolvers answer as with no external data. *)
Theorem falsy_external_is_ignored k1 k2 k3 ext :
  truthy ext = false ->
  get_standard_strategies k1 k2 k3 ext = get_standard_strategies k1 k2 k3 PNone /\
  get_standard_next_steps k1 k2 k3 ext = get_standard_next_steps k1 k2 k3 PNone.
Proof.
  intros H. split.
  - apply strategies_skip_tier. now apply external_tier_falsy.
  - apply next_steps_skip_tier. now apply external_tier_falsy.
Qed.

Lemma falsy_external_is_ignored_witness :
  get_standard_strategies "New Startup/Product Launch" "Raised $3M+" "Attract Investors"
    (PList [])
  = get_standard_strategies "New Startup/Product Launch" "Raised $3M+" "Attract Investors"
      PNone.
Proof.
  apply (falsy_external_is_ignored "New Startup/Product Launch" "Raised $3M+"
           "Attract Investors" (PList [])).
  reflexivity.
Defined.

Lemma external_tier_no_section section k1 k2 k3 (d : gmap string pyval) :
  d !! section = None -> external_tier section k1 k2 k3 (PDict d) = Ok None.
Proof.
  intros H. rewrite external_tier_chain. rewrite (py_in_dict_no_key _ _ H).
  now destruct (truthy (PDict d)).
Qed.

(** X3. The two sections of the external dictionary are independent: a
    dictionary without 'launch_strategies' leaves the strategies as with
    no external data whatever its other entries are, and likewise for
    'next_steps'. *)
Theorem sections_are_independent k1 k2 k3 (d : gmap string pyval) :
  (d !! "launch_strategies" = None ->
   get_standard_strategies k1 k2 k3 (PDict d) = get_standard_strategies k1 k2 k3 PNone) /\
  (d !! "next_steps" = None ->
   get_standard_next_steps k1 k2 k3 (PDict d) = get_standard_next_steps k1 k2 k3 PNone).
Proof.
  split; intros H.
  - apply strategies_skip_tier. now apply external_tier_no_section.
  - apply next_steps_skip_tier. now apply external_tier_no_section.
Qed.

Lemma external_tier_not_dict section k1 k2 k3 ext :
  is_dict ext = false ->
  external_tier section k1 k2 k3 ext =
  if trips_guard section ext then Raise TypeError else Ok None.
Proof.
  intros Hd. rewrite external_tier_chain. unfold trips_guard.
  destruct (truthy ext) eqn:Ht; [|reflexivity]. cbn [andb].
  destruct ext as [|b|n|s|l|d]; try discriminate; cbn [py_in]; run; reflexivity.
Qed.

(** X4. External data that is not a dictionary never supplies a value:
    a true boolean, a non-zero number, a string containing the section
    name or a list holding the section name makes the resolver raise
    [TypeError]; any other non-dictionary is ignored. *)
Theorem non_dictionary_external k1 k2 k3 ext :
  is_dict ext = false ->
  get_standard_strategies k1 k2 k3 ext =
    (if trips_guard "launch_strategies" ext then Raise TypeError
     else get_standard_strategies k1 k2 k3 PNone) /\
  get_standard_next_steps k1 k2 k3 ext =
    (if trips_guard "next_steps" ext then Raise TypeError
     else get_standard_next_steps k1 k2 k3 PNone).
Proof.
  intros Hd. split.
  - destruct (trips_guard "launch_strategies" ext) eqn:Ht.
    + rewrite strategies_by_tier, (external_tier_not_dict _ _ _ _ _ Hd), Ht. reflexivity.
    + apply strategies_skip_tier. now rewrite (external_tier_not_dict _ _ _ _ _ Hd), Ht.
  - destruct (trips_guard "next_steps" ext) eqn:Ht.
    + rewrite next_steps_by_tier, (external_tier_not_dict _ _ _ _ _ Hd), Ht. reflexivity.
    + apply next_steps_skip_tier. now rewrite (external_tier_not_dict _ _ _ _ _ Hd), Ht.
Qed.

Lemma non_dictionary_external_witness :
  get_standard_strategies "Funding Announcement" "Raised under $1M" "Attract Investors"
    (PList [ PStr "launch_strategies"; PStr "next_steps" ])
  = Raise TypeError.
Proof.
  apply (non_dictionary_external "Funding Announcement" "Raised under $1M"
           "Attract Investors" (PList [ PStr "launch_strategies"; PStr "next_steps" ])).
  reflexivity.
Defined.

(** X5. A three-level key path that is present under 'next_steps' in
    the external mapping resolves to exactly the external leaf, whether
    or not the hardcoded table has the path. *)
Theorem external_next_steps_win fs ar plp ext leaf :
  external_leaf "next_steps" fs ar plp ext = Some leaf ->
  get_standard_next_steps fs ar plp ext = Ok leaf.
Proof.
  intros Hleaf. rewrite next_steps_by_tier.
  rewrite (external_tier_found _ _ _ _ _ _ Hleaf). reflexivity.
Qed.

Lemma external_next_steps_win_witness :
  is_Some (static_leaf Tables.next_steps "Bootstrapping (No external funding)"
             "Yes, we have an engaged community" "Scaling & repeatable traction") /\
  get_standard_next_steps "Bootstrapping (No external funding)"
    "Yes, we have an engaged community" "Scaling & repeatable traction" next_steps_override
  = Ok (strs [ "1. Hire a growth lead" ]).
Proof.
  split.
  - vm_compute. eauto.
  - apply external_next_steps_win. vm_compute. reflexivity.
Defined.

Lemma static_leaf_all_paths ok table k1 k2 k3 leaf :
  all_paths ok table = true -> static_leaf table k1 k2 k3 = Some leaf -> ok k1 k2 k3 = true.
Proof.
  unfold all_paths, static_leaf. intros Hall Hleaf.
  destruct (table !! k1) as [m2|] eqn:H1; [|discriminate].
  destruct (m2 !! k2) as [m3|] eqn:H2; [|discriminate].
  pose proof (forallb_map_to_list _ _ _ _ Hall H1) as Hall2. cbn [fst snd] in Hall2.
  pose proof (forallb_map_to_list _ _ _ _ Hall2 H2) as Hall3. cbn [fst snd] in Hall3.
  exact (forallb_map_to_list _ _ _ _ Hall3 Hleaf).
Qed.

Lemma strategies_paths_tailored : all_paths tailored_strategies Tables.strategies = true.
Proof. vm_compute. reflexivity. Qed.

Lemma next_steps_paths_tailored : all_paths tailored_next_steps Tables.next_steps = true.
Proof. vm_compute. reflexivity. Qed.

Lemma in_list_cases s l : in_list s l = true -> In s l.
Proof.
  unfold in_list. intros H. apply existsb_exists in H as (x & Hx & Heq).
  apply String.eqb_eq in Heq. now subst.
Qed.

(** The goals and priorities are spelled out so that a tailored
    combination can be looked up by computation. *)
Ltac pick_member H :=
  apply in_list_cases in H; cbn [In] in H;
  repeat (destruct H as [<-|H]); try contradiction.

Lemma tailored_strategies_in_table lt fs pg :
  tailored_strategies lt fs pg = true -> is_Some (static_leaf Tables.strategies lt fs pg).
Proof.
  unfold tailored_strategies. intros H. apply andb_true_iff in H as [Hpg Hrest].
  destruct (String.eqb_spec lt "New Startup/Product Launch") as [->|_].
  { pick_member Hpg; pick_member Hrest; vm_compute; eauto. }
  destruct (String.eqb_spec lt "Brand Repositioning (Rebrand or Pivot)") as [->|_].
  { apply String.eqb_eq in Hrest as ->. pick_member Hpg; vm_compute; eauto. }
  destruct (String.eqb_spec lt "Funding Announcement") as [->|_].
  { apply String.eqb_eq in Hrest as ->. pick_member Hpg; vm_compute; eauto. }
  destruct (String.eqb_spec lt "Major Partnership or Publicity Push") as [->|_].
  { apply String.eqb_eq in Hrest as ->. pick_member Hpg; vm_compute; eauto. }
  discriminate.
Qed.

Lemma tailored_next_steps_in_table fs ar plp :
  tailored_next_steps fs ar plp = true -> is_Some (static_leaf Tables.next_steps fs ar plp).
Proof.
  unfold tailored_next_steps. intros H.
  apply andb_true_iff in H as [H Hplp]. apply andb_true_iff in H as [Hfs Har].
  apply String.eqb_eq in Hfs as ->. apply String.eqb_eq in Har as ->.
  pick_member Hplp; vm_compute; eauto.
Qed.

Lemma Ok_inj {A : Type} (a b : A) : Ok a = Ok b -> a = b.
Proof. now intros [= ->]. Qed.

Lemma strs_inj l1 l2 : strs l1 = strs l2 -> l1 = l2.
Proof.
  unfold strs. intros [= H]. revert l2 H.
  induction l1 as [|x l1 IH]; intros [|y l2] H; try discriminate; [reflexivity|].
  cbn in H. injection H as -> H. f_equal. now apply IH.
Qed.

Lemma strategies_leaves_not_default :
  all_leaves (fun l => negb (bool_decide (l = Tables.default_strategies))) Tables.strategies
  = true.
Proof. vm_compute. reflexivity. Qed.

Lemma next_steps_leaves_not_default :
  all_leaves (fun l => negb (bool_decide (l = Tables.default_next_steps))) Tables.next_steps
  = true.
Proof. vm_compute. reflexivity. Qed.

(** X6. With no external data the strategies are the generic default
    exactly for the combinations outside the hardcoded table: the table
    covers the four goals for every funding status of a new product
    launch, for a bootstrapped repositioning, for a funding announcement
    under $1M and for a bootstrapped partnership push, and nothing else;
    labels are compared exactly. *)
Theorem strategies_default_iff_not_tailored lt fs pg :
  get_standard_strategies lt fs pg PNone = Ok (strs Tables.default_strategies) <->
  tailored_strategies lt fs pg = false.
Proof.
  rewrite strategies_without_external. unfold static_or_default. split.
  - intros H. destruct (tailored_strategies lt fs pg) eqn:Ht; [|reflexivity].
    destruct (tailored_strategies_in_table _ _ _ Ht) as [leaf Hleaf].
    rewrite Hleaf in H. apply Ok_inj, strs_inj in H.
    pose proof (all_leaves_static_leaf _ _ _ _ _ _ strategies_leaves_not_default Hleaf) as Hne.
    apply negb_true_iff, bool_decide_eq_false in Hne. contradiction.
  - intros Ht. destruct (static_leaf Tables.strategies lt fs pg) as [leaf|] eqn:Hleaf;
      [|reflexivity].
    rewrite (static_leaf_all_paths _ _ _ _ _ _ strategies_paths_tailored Hleaf) in Ht.
    discriminate.
Qed.

(** X7. With no external data the next steps are the generic default
    exactly for the combinations outside the hardcoded table, which
    covers only a bootstrapped startup with an engaged community, for
    the four post-launch priorities. *)
Theorem next_steps_default_iff_not_tailored fs ar plp :
  get_standard_next_steps fs ar plp PNone = Ok (strs Tables.default_next_steps) <->
  tailored_next_steps fs ar plp = false.
Proof.
  rewrite next_steps_without_external. unfold static_or_default. split.
  - intros H. destruct (tailored_next_steps fs ar plp) eqn:Ht; [|reflexivity].
    destruct (tailored_next_steps_in_table _ _ _ Ht) as [leaf Hleaf].
    rewrite Hleaf in H. apply Ok_inj, strs_inj in H.
    pose proof (all_leaves_static_leaf _ _ _ _ _ _ next_steps_leaves_not_default Hleaf) as Hne.
    apply negb_true_iff, bool_decide_eq_false in Hne. contradiction.
  - intros Ht. destruct (static_leaf Tables.next_steps fs ar plp) as [leaf|] eqn:Hleaf;
      [|reflexivity].
    rewrite (static_leaf_all_paths _ _ _ _ _ _ next_steps_paths_tailored Hleaf) in Ht.
    discriminate.
Qed.

(** X8. With no external data each resolver returns a list of exactly
    three strings, whatever the three selections are. *)
Theorem three_items_without_external k1 k2 k3 :
  (exists l, get_standard_strategies k1 k2 k3 PNone = Ok (strs l) /\ length l = 3) /\
  (exists l, get_standard_next_steps k1 k2 k3 PNone = Ok (strs l) /\ length l = 3).
Proof.
  rewrite strategies_without_external, next_steps_without_external.
  unfold static_or_default. split.
  - destruct (static_leaf Tables.strategies k1 k2 k3) as [leaf|] eqn:Hleaf.
    + exists leaf. split; [reflexivity|]. apply Nat.eqb_eq.
      exact (all_leaves_static_leaf three_items _ _ _ _ _ strategies_table_leaves Hleaf).
    + eexists. split; reflexivity.
  - destruct (static_leaf Tables.next_steps k1 k2 k3) as [leaf|] eqn:Hleaf.
    + exists leaf. split; [reflexivity|]. apply Nat.eqb_eq.
      exact (all_leaves_static_leaf three_items _ _ _ _ _ next_steps_table_leaves Hleaf).
    + eexists. split; reflexivity.
Qed.

(** * Further properties of the milestone rules *)

(** X9. Whatever the two labels, the milestones number at most eight,
    carry pairwise different names, and each has a name, a description
    and one of the five relative time markers. *)
Theorem milestones_are_few_distinct_and_dated (launch_type funding_status : string) :
  length (generate_milestone_suggestions launch_type funding_status) <= 8 /\
  NoDup (map name (generate_milestone_suggestions launch_type funding_status)) /\
  forallb well_formed_milestone (generate_milestone_suggestions launch_type funding_status)
  = true.
Proof.
  unfold generate_milestone_suggestions, type_specific_milestones,
    funding_specific_milestones.
  case_markers launch_type; case_markers funding_status;
    (split; [cbn; lia | split; [apply (bool_decide_unpack _); vm_compute; exact I
                               | vm_compute; reflexivity]]).
Qed.

Lemma form_labels_counts (launch_type funding_status : string) :
  In launch_type App.step_3_options ->
  In funding_status App.step_4_options ->
  count_matches launch_type_rules launch_type = 1 /\
  count_matches funding_status_rules funding_status = 1 /\
  length (type_specific_milestones launch_type) = 2 /\
  1 <= length (funding_specific_milestones funding_status) <= 2.
Proof.
  intros Hl Hf. cbn [App.step_3_options App.step_4_options In] in Hl, Hf.
  repeat (destruct Hl as [<-|Hl]); try contradiction;
    repeat (destruct Hf as [<-|Hf]); try contradiction;
    vm_compute; repeat split; lia.
Qed.

Lemma launch_label_not_in_table (launch_type k2 k3 : string) :
  In launch_type App.step_3_options ->
  static_leaf Tables.strategies launch_type k2 k3 = None.
Proof.
  intros Hl. cbn [App.step_3_options In] in Hl.
  repeat (destruct Hl as [<-|Hl]); try contradiction; vm_compute; reflexivity.
Qed.

Lemma funding_label_not_in_table (funding_status k2 k3 : string) :
  In funding_status App.step_4_options ->
  static_leaf Tables.next_steps funding_status k2 k3 = None.
Proof.
  intros Hf. cbn [App.step_4_options In] in Hf.
  repeat (destruct Hf as [<-|Hf]); try contradiction; vm_compute; reflexivity.
Qed.

(** X10. Every launch type label of [step_3] carries exactly one of the
    launch markers and every funding status label of [step_4] exactly
    one of the funding markers, so the labels of the form get two
    milestones for the launch type and one or two for the funding
    status. *)
Theorem form_labels_match_one_category (launch_type funding_status : string) :
  In launch_type App.step_3_options ->
  In funding_status App.step_4_options ->
  count_matches launch_type_rules launch_type = 1 /\
  count_matches funding_status_rules funding_status = 1 /\
  length (type_specific_milestones launch_type) = 2 /\
  1 <= length (funding_specific_milestones funding_status) <= 2.
Proof.
  intros Hl Hf. destruct (form_labels_counts _ _ Hl Hf) as (H1 & H2 & H3 & H4).
  rewrite H1, H2, H3. repeat split; reflexivity || apply H4.
Qed.

Lemma form_labels_match_one_category_witness :
  count_matches launch_type_rules "📢 Major Partnership or Publicity Push" = 1 /\
  count_matches funding_status_rules "📈 Raised $1M-$3M (Have 12-18 months of runway)" = 1 /\
  length (type_specific_milestones "📢 Major Partnership or Publicity Push") = 2 /\
  1 <= length (funding_specific_milestones
                 "📈 Raised $1M-$3M (Have 12-18 months of runway)") <= 2.
Proof.
  apply form_labels_match_one_category; cbn; tauto.
Defined.

(** X11. The labels the form offers are not keys of the hardcoded
    tables: with a launch type label of [step_3] the strategies are the
    generic default, and with a funding status label of [step_4] the
    next steps are the generic default, whatever the other selections,
    when there is no external data. *)
Theorem form_labels_miss_the_tables (launch_type funding_status k2 k3 : string) :
  In launch_type App.step_3_options ->
  In funding_status App.step_4_options ->
  get_standard_strategies launch_type k2 k3 PNone = Ok (strs Tables.default_strategies) /\
  get_standard_next_steps funding_status k2 k3 PNone = Ok (strs Tables.default_next_steps).
Proof.
  intros Hl Hf. rewrite strategies_without_external, next_steps_without_external.
  unfold static_or_default.
  rewrite (launch_label_not_in_table _ k2 k3 Hl), (funding_label_not_in_table _ k2 k3 Hf).
  split; reflexivity.
Qed.

Lemma form_labels_miss_the_tables_witness :
  get_standard_strategies "🚀 New Startup/Product Launch"
    "🚀 Bootstrapping (No external funding, self-funded)" "🚀 Get Users or Customers" PNone
  = Ok (strs Tables.default_strategies).
Proof.
  apply (form_labels_miss_the_tables "🚀 New Startup/Product Launch"
           "🚀 Bootstrapping (No external funding, self-funded)");
    cbn; tauto.
Defined.

(** * Properties of the form *)

(** X12. [on_next] of step 1 accepts the three inputs exactly when the
    email contains "@" and ".": it then stores them under their own keys,
    moves one step on and leaves the rest of the session as it was; on
    any other email the session is unchanged. *)
Theorem step_1_accepts_only_dotted_at_emails (first_name email startup_name : string)
    (s : App.session) :
  (contains "@" email && contains "." email = true ->
   App.step (App.step_1_on_next first_name email startup_name s) = (App.step s + 1)%Z /\
   App.first_name (App.form_data (App.step_1_on_next first_name email startup_name s)) = first_name /\
   App.email (App.form_data (App.step_1_on_next first_name email startup_name s)) = email /\
   App.startup_name (App.form_data (App.step_1_on_next first_name email startup_name s)) = startup_name /\
   App.messaging_tested (App.form_data (App.step_1_on_next first_name email startup_name s))
     = App.messaging_tested (App.form_data s) /\
   App.launch_type (App.form_data (App.step_1_on_next first_name email startup_name s))
     = App.launch_type (App.form_data s) /\
   App.funding_status (App.form_data (App.step_1_on_next first_name email startup_name s))
     = App.funding_status (App.form_data s) /\
   App.primary_goal (App.form_data (App.step_1_on_next first_name email startup_name s))
     = App.primary_goal (App.form_data s) /\
   App.audience_readiness (App.form_data (App.step_1_on_next first_name email startup_name s))
     = App.audience_readiness (App.form_data s) /\
   App.post_launch_priority (App.form_data (App.step_1_on_next first_name email startup_name s))
     = App.post_launch_priority (App.form_data s) /\
   App.industry (App.form_data (App.step_1_on_next first_name email startup_name s))
     = App.industry (App.form_data s) /\
   App.generated_plan (App.step_1_on_next first_name email startup_name s) = App.generated_plan s /\
   App.email_sent (App.step_1_on_next first_name email startup_name s) = App.email_sent s /\
   App.show_calendar (App.step_1_on_next first_name email startup_name s) = App.show_calendar s) /\
  (contains "@" email && contains "." email = false ->
   App.step_1_on_next first_name email startup_name s = s).
Proof.
  unfold App.step_1_on_next. split; intros H.
  - apply andb_true_iff in H as [-> ->]. cbn. repeat split; reflexivity.
  - apply andb_false_iff in H as [-> | ->]; cbn; [reflexivity|].
    now rewrite orb_true_r.
Qed.

Lemma split_space_1_no_space (selected : string) :
  contains " " selected = false -> App.split_space_1 selected = [ selected ].
Proof.
  induction selected as [|c rest IH]; [reflexivity|].
  cbn [contains App.split_space_1 String.prefix].
  destruct (Ascii.ascii_dec " " c) as [<-|Hc].
  - now destruct rest.
  - intros H. rewrite (IH H).
    destruct (Ascii.eqb_spec c " ") as [->|_]; [now destruct Hc | reflexivity].
Qed.

Lemma split_space_1_first_space (before after : string) :
  contains " " before = false ->
  App.split_space_1 (before ++ " " ++ after) = [ before; after ].
Proof.
  induction before as [|c before IH]; [reflexivity|].
  rewrite append_cons. cbn [contains App.split_space_1 String.prefix].
  destruct (Ascii.ascii_dec " " c) as [<-|Hc].
  - now destruct before.
  - intros H. rewrite (IH H).
    destruct (Ascii.eqb_spec c " ") as [->|_]; [now destruct Hc | reflexivity].
Qed.

Lemma contains_space_split (selected : string) :
  contains " " selected = true ->
  exists before after, selected = before ++ " " ++ after /\ contains " " before = false.
Proof.
  induction selected as [|c rest IH]; [discriminate|].
  cbn [contains String.prefix].
  destruct (Ascii.ascii_dec " " c) as [<-|Hc].
  - intros _. exists "", rest. split; reflexivity.
  - intros H. destruct (IH H) as (before & after & -> & Hb).
    exists (String c before), after. split; [reflexivity|].
    cbn [contains String.prefix]. destruct (Ascii.ascii_dec " " c); [contradiction|exact Hb].
Qed.

Lemma industry_of_after_first_space (before after : string) :
  contains " " before = false ->
  App.industry_of (before ++ " " ++ after) = Some after.
Proof.
  intros Hb. unfold App.industry_of.
  replace (contains " " (before ++ " " ++ after)) with true.
  - now rewrite (split_space_1_first_space _ _ Hb).
  - symmetry. apply contains_iff. exists before, after. reflexivity.
Qed.

(** X13. The industry taken from a selection is always defined: the
    index [1] into the split is in range whenever it is used.  A
    selection without a space is kept whole; otherwise the industry is
    everything after the first space, later spaces included. *)
Theorem industry_of_is_total (selected : string) :
  (exists industry, App.industry_of selected = Some industry) /\
  (contains " " selected = false -> App.industry_of selected = Some selected) /\
  (forall before after,
     contains " " before = false ->
     App.industry_of (before ++ " " ++ after) = Some after).
Proof.
  split; [|split].
  - destruct (contains " " selected) eqn:Hc.
    + destruct (contains_space_split _ Hc) as (before & after & -> & Hb).
      rewrite (industry_of_after_first_space _ _ Hb). eauto.
    + unfold App.industry_of. rewrite Hc. eauto.
  - unfold App.industry_of. now intros ->.
  - apply industry_of_after_first_space.
Qed.

Lemma industry_emojis_have_no_space :
  forallb (fun kv : string * string => negb (contains " " kv.2) && negb (App.blank kv.2))
          (map_to_list App.industry_emojis) = true.
Proof. vm_compute. reflexivity. Qed.

Lemma industry_emoji_no_space (industry : string) :
  contains " " (default "🔍" (App.industry_emojis !! industry)) = false /\
  App.blank (default "🔍" (App.industry_emojis !! industry)) = false.
Proof.
  destruct (App.industry_emojis !! industry) as [emoji|] eqn:He; cbn [default].
  - pose proof (forallb_map_to_list _ _ _ _ industry_emojis_have_no_space He) as H.
    cbn [snd] in H. apply andb_true_iff in H as [H1 H2].
    split; now apply negb_true_iff.
  - split; reflexivity.
Qed.

Lemma blank_append (a b : string) : App.blank a = false -> App.blank (a ++ b) = false.
Proof. destruct a; [discriminate | reflexivity]. Qed.

(** X14. Step 8 recovers the industry from the label it offers for it:
    whatever the industry name, spaces included, choosing the option
    built from it stores that very name, moves one step on and touches
    nothing else of the form. *)
Theorem step_8_stores_the_industry (industry : string) (s : App.session) :
  exists s',
    App.step_8_on_next (Some (App.industry_option industry)) s = Some s' /\
    App.industry (App.form_data s') = Some industry /\
    App.step s' = (App.step s + 1)%Z /\
    App.first_name (App.form_data s') = App.first_name (App.form_data s) /\
    App.startup_name (App.form_data s') = App.startup_name (App.form_data s) /\
    App.email (App.form_data s') = App.email (App.form_data s) /\
    App.messaging_tested (App.form_data s') = App.messaging_tested (App.form_data s) /\
    App.launch_type (App.form_data s') = App.launch_type (App.form_data s) /\
    App.funding_status (App.form_data s') = App.funding_status (App.form_data s) /\
    App.primary_goal (App.form_data s') = App.primary_goal (App.form_data s) /\
    App.audience_readiness (App.form_data s') = App.audience_readiness (App.form_data s) /\
    App.post_launch_priority (App.form_data s') = App.post_launch_priority (App.form_data s) /\
    App.generated_plan s' = App.generated_plan s /\
    App.email_sent s' = App.email_sent s /\
    App.show_calendar s' = App.show_calendar s.
Proof.
  destruct (industry_emoji_no_space industry) as [Hsp Hbl].
  unfold App.step_8_on_next, App.chosen, App.industry_option.
  rewrite (blank_append _ (" " ++ industry) Hbl). cbn [negb].
  rewrite (industry_of_after_first_space _ industry Hsp).
  cbn. eexists. repeat split; reflexivity.
Qed.

(** X15. Answering the eight steps in the order [main] shows them, with
    an email step 1 accepts, ends on step 9 with every answer stored
    under its own key of the form and the industry without its emoji;
    no plan exists yet. *)
Theorem answering_the_form_reaches_step_9
    (first_name email startup_name industry : string)
    (messaging launch funding goal audience priority : option string) :
  contains "@" email && contains "." email = true ->
  exists s',
    App.step_8_on_next (Some (App.industry_option industry))
      (App.step_7_on_next priority
        (App.step_6_on_next audience
          (App.step_5_on_next goal
            (App.step_4_on_next funding
              (App.step_3_on_next launch
                (App.step_2_on_next messaging
                  (App.step_1_on_next first_name email startup_name App.initial)))))))
    = Some s' /\
    App.main_screen s' = App.FormStep 9 /\
    App.form_data s' =
      {| App.first_name := first_name;
         App.startup_name := startup_name;
         App.messaging_tested := messaging;
         App.launch_type := launch;
         App.funding_status := funding;
         App.primary_goal := goal;
         App.audience_readiness := audience;
         App.post_launch_priority := priority;
         App.industry := Some industry;
         App.email := email |}.
Proof.
  intros Hemail. apply andb_true_iff in Hemail as [Hat Hdot].
  destruct (industry_emoji_no_space industry) as [Hsp Hbl].
  unfold App.step_1_on_next. rewrite Hat, Hdot. cbn [negb orb].
  unfold App.step_8_on_next, App.chosen, App.industry_option.
  rewrite (blank_append _ (" " ++ industry) Hbl). cbn [negb].
  rewrite (industry_of_after_first_space _ industry Hsp).
  eexists. split; [reflexivity|]. split; reflexivity.
Qed.

Lemma answering_the_form_reaches_step_9_witness :
  exists s',
    App.step_8_on_next (Some (App.industry_option "D2C / E-commerce"))
      (App.step_7_on_next (Some "🔥 Sustaining press & industry visibility")
        (App.step_6_on_next (Some "✅ Yes, we have an engaged community")
          (App.step_5_on_next (Some "💰 Attract Investors")
            (App.step_4_on_next (Some "🏆 Raised $3M+ (Series A+; established growth strategy)")
              (App.step_3_on_next (Some "💰 Funding Announcement")
                (App.step_2_on_next (Some "❌ No, I haven't tested it yet")
                  (App.step_1_on_next "Grace" "grace@compilers.example" "Compilers Inc"
                     App.initial)))))))
    = Some s' /\
    App.main_screen s' = App.FormStep 9 /\
    App.form_data s' =
      {| App.first_name := "Grace";
         App.startup_name := "Compilers Inc";
         App.messaging_tested := Some "❌ No, I haven't tested it yet";
         App.launch_type := Some "💰 Funding Announcement";
         App.funding_status := Some "🏆 Raised $3M+ (Series A+; established growth strategy)";
         App.primary_goal := Some "💰 Attract Investors";
         App.audience_readiness := Some "✅ Yes, we have an engaged community";
         App.post_launch_priority := Some "🔥 Sustaining press & industry visibility";
         App.industry := Some "D2C / E-commerce";
         App.email := "grace@compilers.example" |}.
Proof.
  apply answering_the_form_reaches_step_9. vm_compute. reflexivity.
Defined.

(** X16. [reset_form] forgets everything: from any session it gives the
    session the application starts with, and [main] shows step 1
    again. *)
Theorem reset_form_restores_the_initial_session (s : App.session) :
  App.reset_form s = App.initial /\
  App.main_screen (App.reset_form s) = App.FormStep 1.
Proof. split; reflexivity. Qed.

(** * Further properties of the plan *)

Lemma plan_inversion ai form ext plan :
  generate_launch_plan ai form ext = Ok plan ->
  exists advice s rs n ns,
    AI.generate_ai_messaging_advice ai (Form.messaging_tested form) = Ok advice /\
    get_standard_strategies (Form.launch_type form) (Form.funding_status form)
                            (Form.primary_goal form) ext = Ok s /\
    AI.generate_ai_strategies ai form s = Ok rs /\
    get_standard_next_steps (Form.funding_status form) (Form.audience_readiness form)
                            (Form.post_launch_priority form) ext = Ok n /\
    AI.generate_ai_next_steps ai form n = Ok ns /\
    plan = {| first_name := Form.first_name form;
              startup_name := Form.startup_name form;
              messaging_advice := advice;
              launch_summary := {| Summary.launch_type := Form.launch_type form;
                                   Summary.funding_status := Form.funding_status form;
                                   Summary.primary_goal := Form.primary_goal form |};
              recommended_strategies := rs;
              next_steps := ns;
              milestone_suggestions :=
                generate_milestone_suggestions (Form.launch_type form)
                                               (Form.funding_status form) |}.
Proof.
  unfold generate_launch_plan.
  destruct (AI.generate_ai_messaging_advice ai _) as [advice|] eqn:Ha; run; [|discriminate].
  destruct (get_standard_strategies _ _ _ ext) as [s|] eqn:Hs; run; [|discriminate].
  destruct (AI.generate_ai_strategies ai form s) as [rs|] eqn:Hrs; run; [|discriminate].
  destruct (get_standard_next_steps _ _ _ ext) as [n|] eqn:Hn; run; [|discriminate].
  destruct (AI.generate_ai_next_steps ai form n) as [ns|] eqn:Hns; run; [|discriminate].
  intros [= <-]. exists advice, s, rs, n, ns. repeat split; assumption || reflexivity.
Qed.

(** X17. In a plan that is returned the names, the launch summary and
    the milestones come from the form alone, whatever the external data
    and the AI collaborator are; the recommended strategies and the next
    steps are what the collaborator returned for the resolver results as
    fallbacks. *)
Theorem plan_fields_by_origin ai form ext plan :
  generate_launch_plan ai form ext = Ok plan ->
  first_name plan = Form.first_name form /\
  startup_name plan = Form.startup_name form /\
  launch_summary plan = {| Summary.launch_type := Form.launch_type form;
                           Summary.funding_status := Form.funding_status form;
                           Summary.primary_goal := Form.primary_goal form |} /\
  milestone_suggestions plan =
    generate_milestone_suggestions (Form.launch_type form) (Form.funding_status form) /\
  (exists s, get_standard_strategies (Form.launch_type form) (Form.funding_status form)
               (Form.primary_goal form) ext = Ok s /\
             AI.generate_ai_strategies ai form s = Ok (recommended_strategies plan)) /\
  (exists n, get_standard_next_steps (Form.funding_status form)
               (Form.audience_readiness form) (Form.post_launch_priority form) ext = Ok n /\
             AI.generate_ai_next_steps ai form n = Ok (next_steps plan)).
Proof.
  intros H. destruct (plan_inversion _ _ _ _ H) as (advice & s & rs & n & ns & Ha & Hs & Hrs
                                                    & Hn & Hns & ->).
  cbn. repeat split; eauto.
Qed.

Lemma plan_fields_by_origin_witness :
  exists plan,
    generate_launch_plan Samples.offline Samples.announcer Samples.hollow = Ok plan /\
    map name (milestone_suggestions plan) =
      [ "Messaging Validation"; "Content Creation Deadline"; "Launch Day";
        "Post-Launch Analysis"; "Press Release Draft"; "Investor Coordination";
        "Marketing Campaign Launch"; "Industry Event Planning" ].
Proof.
  eexists. split; [vm_compute; reflexivity|].
  match goal with
  | |- map name (milestone_suggestions ?p) = _ =>
      rewrite (proj1 (proj2 (proj2 (proj2
                 (plan_fields_by_origin Samples.offline Samples.announcer Samples.hollow p
                    ltac:(vm_compute; reflexivity))))))
  end.
  vm_compute. reflexivity.
Defined.

(** X18. When the three AI functions never raise, whatever they
    return, plan generation fails exactly when one of the two resolvers
    fails, and with the resolver's exception. *)
Theorem plan_fails_with_the_resolvers ai form ext e :
  never_raises ai ->
  generate_launch_plan ai form ext = Raise e <->
  get_standard_strategies (Form.launch_type form) (Form.funding_status form)
                          (Form.primary_goal form) ext = Raise e \/
  get_standard_next_steps (Form.funding_status form) (Form.audience_readiness form)
                          (Form.post_launch_priority form) ext = Raise e.
Proof.
  intros (Hadv & Hais & Hain).
  destruct (Hadv (Form.messaging_tested form)) as (advice & Hadvice).
  unfold generate_launch_plan. rewrite Hadvice. run.
  destruct (get_standard_strategies _ _ _ ext) as [s|es] eqn:Hs; run.
  - destruct (Hais form s) as (rs & Hrs). rewrite Hrs. run.
    destruct (get_standard_next_steps _ _ _ ext) as [n|en] eqn:Hn; run.
    + destruct (Hain form n) as (ns & Hns). rewrite Hns. run.
      split; [discriminate | intros [H|H]; discriminate].
    + split; [intros [= ->]; now right | intros [H|H]; [discriminate | now injection H as ->]].
  - split; [intros [= ->]; now left|]. intros [H|H]; [now injection H as ->|].
    assert (es = TypeError) as ->.
    { apply (external_raise_is_TypeError_strategies _ _ _ _ _ Hs). }
    assert (e = TypeError) as ->.
    { apply (external_raise_is_TypeError_next_steps _ _ _ _ _ H). }
    reflexivity.
Qed.

Lemma plan_fails_with_the_resolvers_witness :
  generate_launch_plan mute Samples.founder Samples.shallow = Raise TypeError.
Proof.
  apply (plan_fails_with_the_resolvers mute Samples.founder Samples.shallow).
  - split; [|split]; intros; eexists; reflexivity.
  - left. vm_compute. reflexivity.
Defined.

(** X19. A plan made from the form's own labels, with no external data
    and every enhancement falling back, recommends the generic default
    strategies and the generic default next steps, and lists seven or
    eight milestones: only the milestone rules tell the labels apart. *)
Theorem labelled_form_gets_the_generic_plan canned ai form :
  falls_back canned ai form ->
  In (Form.launch_type form) App.step_3_options ->
  In (Form.funding_status form) App.step_4_options ->
  exists plan,
    generate_launch_plan ai form PNone = Ok plan /\
    recommended_strategies plan = strs Tables.default_strategies /\
    next_steps plan = strs Tables.default_next_steps /\
    7 <= length (milestone_suggestions plan) <= 8.
Proof.
  intros Hfb Hl Hf. rewrite (plan_on_fallback _ _ _ _ Hfb).
  rewrite strategies_without_external, next_steps_without_external. run.
  unfold static_or_default.
  rewrite (launch_label_not_in_table _ _ _ Hl), (funding_label_not_in_table _ _ _ Hf).
  eexists. split; [reflexivity|]. cbn [recommended_strategies next_steps standard_plan].
  split; [reflexivity|]. split; [reflexivity|].
  unfold standard_plan. cbn [milestone_suggestions].
  unfold generate_milestone_suggestions.
  destruct (form_labels_counts _ _ Hl Hf) as (_ & _ & Ht & Hfl).
  rewrite !length_app, Ht. cbn [basic_milestones length]. lia.
Qed.

Lemma labelled_form_gets_the_generic_plan_witness :
  exists plan,
    generate_launch_plan Samples.offline labelled_form PNone = Ok plan /\
    recommended_strategies plan = strs Tables.default_strategies /\
    next_steps plan = strs Tables.default_next_steps /\
    7 <= length (milestone_suggestions plan) <= 8.
Proof.
  apply (labelled_form_gets_the_generic_plan Samples.canned).
  - split; [reflexivity | split; intros fallback; reflexivity].
  - cbn. tauto.
  - cbn. tauto.
Defined.
